(** * Stonekeep save game editor (stonekeep.py): a shallow embedding

    The program is a Python 3 script, modelled as it runs on a POSIX
    system.  Its observable effects are explicit: the operating system's
    answer for every path (an oracle [paths] that maps a path string to
    what opening it finds), the regular files by inode, the lines written
    to stdout, the outcomes of the calls of [input], and Python
    exceptions.  A small state-and-exception monad [M] threads these
    through the code.  Python [str] values are sequences of Unicode code
    points; [str.strip], [str.isspace] and [str.lower] follow the Unicode
    database of Python 3.11 (Unicode 14.0). *)

From Stdlib Require Import ZArith String Ascii Lia.
From stdpp Require Import base gmap list.

Open Scope Z_scope.

(* ------------------------------------------------------------------ *)
(** ** Enums and tables (stonekeep.py lines 31-78) *)

Inductive character_name := Drake | Farley.

Inductive attributes := health | agility.

(** [ATTRIBUTE_VALUES]: a Python dict indexed with [d[k]]; an absent key
    (including [None]) raises [KeyError], modelled by [None] here. *)
Definition ATTRIBUTE_VALUES (a : option attributes) : option Z :=
  match a with
  | Some health => Some 255
  | Some agility => Some 10
  | None => None
  end.

(** [OFFSETS]: the nested dict, outer key the character, inner key the
    attribute. *)
Definition OFFSETS (n : option character_name) : option (option attributes -> option Z) :=
  match n with
  | Some Drake => Some (fun a => match a with
                                 | Some health => Some 340
                                 | Some agility => Some 99999
                                 | None => None
                                 end)
  | Some Farley => Some (fun a => match a with
                                  | Some health => Some 99999
                                  | _ => None
                                  end)
  | None => None
  end.

(** [game_character]: both fields default to [None]. *)
Record game_character := mk_game_character {
  name : option character_name;
  attrs : option attributes
}.

(* ------------------------------------------------------------------ *)
(** ** Python strings *)

(** A Python [str]: its code points. *)
Definition pystr := list Z.

(** The code points of a string literal of the source (all are ASCII). *)
Fixpoint str_of (s : string) : pystr :=
  match s with
  | EmptyString => []
  | String c s' => Z.of_nat (nat_of_ascii c) :: str_of s'
  end.

Definition in_ranges (rs : list (Z * Z)) (c : Z) : bool :=
  existsb (fun r => (fst r <=? c) && (c <=? snd r)) rs.

(** The code points for which [str.isspace] holds: bidirectional class
    WS, B or S, or general category Zs. *)
Definition whitespace_ranges : list (Z * Z) :=
  [(0x9, 0xD); (0x1C, 0x20); (0x85, 0x85); (0xA0, 0xA0); (0x1680, 0x1680);
   (0x2000, 0x200A); (0x2028, 0x2029); (0x202F, 0x202F); (0x205F, 0x205F);
   (0x3000, 0x3000)].

Definition py_isspace (c : Z) : bool := in_ranges whitespace_ranges c.

(** [s.lstrip(...)] with the set of removed characters given by [p]. *)
Fixpoint lstrip_by (p : Z -> bool) (s : pystr) : pystr :=
  match s with
  | [] => []
  | c :: s' => if p c then lstrip_by p s' else s
  end.

Definition rstrip_by (p : Z -> bool) (s : pystr) : pystr :=
  reverse (lstrip_by p (reverse s)).

(** [s.strip(chars)]: drop characters satisfying [p] from both ends. *)
Definition strip_by (p : Z -> bool) (s : pystr) : pystr :=
  rstrip_by p (lstrip_by p s).

(** [s.strip()]. *)
Definition py_strip (s : pystr) : pystr := strip_by py_isspace s.

(** [s.strip(ch)] for a one-character argument. *)
Definition py_strip_char (ch : Z) (s : pystr) : pystr :=
  strip_by (fun c => c =? ch) s.

(** [s.startswith(pre)]. *)
Definition py_startswith (pre s : pystr) : bool :=
  bool_decide (take (length pre) s = pre).

(** Tables of the Unicode database used by [str.lower].
    [lower_runs]: the one-to-one lower-case mappings, as runs
    [(lo, hi, step, delta)]: every [c] in [lo..hi] with [c - lo] a
    multiple of [step] maps to [c + delta].
    [case_ignorable_ranges] and [cased_ranges]: the Case_Ignorable and
    Cased properties ([cased_ranges] lists the cased code points that are
    not case-ignorable; the rule below never asks about the others). *)
Definition lower_runs : list (Z * Z * Z * Z) := [
  (0x41, 0x5A, 1, 32); (0xC0, 0xD6, 1, 32); (0xD8, 0xDE, 1, 32); (0x100, 0x12E, 2, 1);
  (0x132, 0x136, 2, 1); (0x139, 0x147, 2, 1); (0x14A, 0x176, 2, 1); (0x178, 0x178, 1, -121);
  (0x179, 0x17D, 2, 1); (0x181, 0x181, 1, 210); (0x182, 0x184, 2, 1); (0x186, 0x186, 1, 206);
  (0x187, 0x187, 1, 1); (0x189, 0x18A, 1, 205); (0x18B, 0x18B, 1, 1); (0x18E, 0x18E, 1, 79);
  (0x18F, 0x18F, 1, 202); (0x190, 0x190, 1, 203); (0x191, 0x191, 1, 1); (0x193, 0x193, 1, 205);
  (0x194, 0x194, 1, 207); (0x196, 0x196, 1, 211); (0x197, 0x197, 1, 209); (0x198, 0x198, 1, 1);
  (0x19C, 0x19C, 1, 211); (0x19D, 0x19D, 1, 213); (0x19F, 0x19F, 1, 214); (0x1A0, 0x1A4, 2, 1);
  (0x1A6, 0x1A6, 1, 218); (0x1A7, 0x1A7, 1, 1); (0x1A9, 0x1A9, 1, 218); (0x1AC, 0x1AC, 1, 1);
  (0x1AE, 0x1AE, 1, 218); (0x1AF, 0x1AF, 1, 1); (0x1B1, 0x1B2, 1, 217); (0x1B3, 0x1B5, 2, 1);
  (0x1B7, 0x1B7, 1, 219); (0x1B8, 0x1B8, 1, 1); (0x1BC, 0x1BC, 1, 1); (0x1C4, 0x1C4, 1, 2);
  (0x1C5, 0x1C5, 1, 1); (0x1C7, 0x1C7, 1, 2); (0x1C8, 0x1C8, 1, 1); (0x1CA, 0x1CA, 1, 2);
  (0x1CB, 0x1DB, 2, 1); (0x1DE, 0x1EE, 2, 1); (0x1F1, 0x1F1, 1, 2); (0x1F2, 0x1F4, 2, 1);
  (0x1F6, 0x1F6, 1, -97); (0x1F7, 0x1F7, 1, -56); (0x1F8, 0x21E, 2, 1); (0x220, 0x220, 1, -130);
  (0x222, 0x232, 2, 1); (0x23A, 0x23A, 1, 10795); (0x23B, 0x23B, 1, 1); (0x23D, 0x23D, 1, -163);
  (0x23E, 0x23E, 1, 10792); (0x241, 0x241, 1, 1); (0x243, 0x243, 1, -195); (0x244, 0x244, 1, 69);
  (0x245, 0x245, 1, 71); (0x246, 0x24E, 2, 1); (0x370, 0x372, 2, 1); (0x376, 0x376, 1, 1);
  (0x37F, 0x37F, 1, 116); (0x386, 0x386, 1, 38); (0x388, 0x38A, 1, 37); (0x38C, 0x38C, 1, 64);
  (0x38E, 0x38F, 1, 63); (0x391, 0x3A1, 1, 32); (0x3A3, 0x3AB, 1, 32); (0x3CF, 0x3CF, 1, 8);
  (0x3D8, 0x3EE, 2, 1); (0x3F4, 0x3F4, 1, -60); (0x3F7, 0x3F7, 1, 1); (0x3F9, 0x3F9, 1, -7);
  (0x3FA, 0x3FA, 1, 1); (0x3FD, 0x3FF, 1, -130); (0x400, 0x40F, 1, 80); (0x410, 0x42F, 1, 32);
  (0x460, 0x480, 2, 1); (0x48A, 0x4BE, 2, 1); (0x4C0, 0x4C0, 1, 15); (0x4C1, 0x4CD, 2, 1);
  (0x4D0, 0x52E, 2, 1); (0x531, 0x556, 1, 48); (0x10A0, 0x10C5, 1, 7264); (0x10C7, 0x10C7, 1, 7264);
  (0x10CD, 0x10CD, 1, 7264); (0x13A0, 0x13EF, 1, 38864); (0x13F0, 0x13F5, 1, 8); (0x1C90, 0x1CBA, 1, -3008);
  (0x1CBD, 0x1CBF, 1, -3008); (0x1E00, 0x1E94, 2, 1); (0x1E9E, 0x1E9E, 1, -7615); (0x1EA0, 0x1EFE, 2, 1);
  (0x1F08, 0x1F0F, 1, -8); (0x1F18, 0x1F1D, 1, -8); (0x1F28, 0x1F2F, 1, -8); (0x1F38, 0x1F3F, 1, -8);
  (0x1F48, 0x1F4D, 1, -8); (0x1F59, 0x1F5F, 2, -8); (0x1F68, 0x1F6F, 1, -8); (0x1F88, 0x1F8F, 1, -8);
  (0x1F98, 0x1F9F, 1, -8); (0x1FA8, 0x1FAF, 1, -8); (0x1FB8, 0x1FB9, 1, -8); (0x1FBA, 0x1FBB, 1, -74);
  (0x1FBC, 0x1FBC, 1, -9); (0x1FC8, 0x1FCB, 1, -86); (0x1FCC, 0x1FCC, 1, -9); (0x1FD8, 0x1FD9, 1, -8);
  (0x1FDA, 0x1FDB, 1, -100); (0x1FE8, 0x1FE9, 1, -8); (0x1FEA, 0x1FEB, 1, -112); (0x1FEC, 0x1FEC, 1, -7);
  (0x1FF8, 0x1FF9, 1, -128); (0x1FFA, 0x1FFB, 1, -126); (0x1FFC, 0x1FFC, 1, -9); (0x2126, 0x2126, 1, -7517);
  (0x212A, 0x212A, 1, -8383); (0x212B, 0x212B, 1, -8262); (0x2132, 0x2132, 1, 28); (0x2160, 0x216F, 1, 16);
  (0x2183, 0x2183, 1, 1); (0x24B6, 0x24CF, 1, 26); (0x2C00, 0x2C2F, 1, 48); (0x2C60, 0x2C60, 1, 1);
  (0x2C62, 0x2C62, 1, -10743); (0x2C63, 0x2C63, 1, -3814); (0x2C64, 0x2C64, 1, -10727); (0x2C67, 0x2C6B, 2, 1);
  (0x2C6D, 0x2C6D, 1, -10780); (0x2C6E, 0x2C6E, 1, -10749); (0x2C6F, 0x2C6F, 1, -10783); (0x2C70, 0x2C70, 1, -10782);
  (0x2C72, 0x2C72, 1, 1); (0x2C75, 0x2C75, 1, 1); (0x2C7E, 0x2C7F, 1, -10815); (0x2C80, 0x2CE2, 2, 1);
  (0x2CEB, 0x2CED, 2, 1); (0x2CF2, 0x2CF2, 1, 1); (0xA640, 0xA66C, 2, 1); (0xA680, 0xA69A, 2, 1);
  (0xA722, 0xA72E, 2, 1); (0xA732, 0xA76E, 2, 1); (0xA779, 0xA77B, 2, 1); (0xA77D, 0xA77D, 1, -35332);
  (0xA77E, 0xA786, 2, 1); (0xA78B, 0xA78B, 1, 1); (0xA78D, 0xA78D, 1, -42280); (0xA790, 0xA792, 2, 1);
  (0xA796, 0xA7A8, 2, 1); (0xA7AA, 0xA7AA, 1, -42308); (0xA7AB, 0xA7AB, 1, -42319); (0xA7AC, 0xA7AC, 1, -42315);
  (0xA7AD, 0xA7AD, 1, -42305); (0xA7AE, 0xA7AE, 1, -42308); (0xA7B0, 0xA7B0, 1, -42258); (0xA7B1, 0xA7B1, 1, -42282);
  (0xA7B2, 0xA7B2, 1, -42261); (0xA7B3, 0xA7B3, 1, 928); (0xA7B4, 0xA7C2, 2, 1); (0xA7C4, 0xA7C4, 1, -48);
  (0xA7C5, 0xA7C5, 1, -42307); (0xA7C6, 0xA7C6, 1, -35384); (0xA7C7, 0xA7C9, 2, 1); (0xA7D0, 0xA7D0, 1, 1);
  (0xA7D6, 0xA7D8, 2, 1); (0xA7F5, 0xA7F5, 1, 1); (0xFF21, 0xFF3A, 1, 32); (0x10400, 0x10427, 1, 40);
  (0x104B0, 0x104D3, 1, 40); (0x10570, 0x1057A, 1, 39); (0x1057C, 0x1058A, 1, 39); (0x1058C, 0x10592, 1, 39);
  (0x10594, 0x10595, 1, 39); (0x10C80, 0x10CB2, 1, 64); (0x118A0, 0x118BF, 1, 32); (0x16E40, 0x16E5F, 1, 32);
  (0x1E900, 0x1E921, 1, 34)].

Definition case_ignorable_ranges : list (Z * Z) := [
  (0x27, 0x27); (0x2E, 0x2E); (0x3A, 0x3A); (0x5E, 0x5E); (0x60, 0x60); (0xA8, 0xA8);
  (0xAD, 0xAD); (0xAF, 0xAF); (0xB4, 0xB4); (0xB7, 0xB8); (0x2B0, 0x36F); (0x374, 0x375);
  (0x37A, 0x37A); (0x384, 0x385); (0x387, 0x387); (0x483, 0x489); (0x559, 0x559); (0x55F, 0x55F);
  (0x591, 0x5BD); (0x5BF, 0x5BF); (0x5C1, 0x5C2); (0x5C4, 0x5C5); (0x5C7, 0x5C7); (0x5F4, 0x5F4);
  (0x600, 0x605); (0x610, 0x61A); (0x61C, 0x61C); (0x640, 0x640); (0x64B, 0x65F); (0x670, 0x670);
  (0x6D6, 0x6DD); (0x6DF, 0x6E8); (0x6EA, 0x6ED); (0x70F, 0x70F); (0x711, 0x711); (0x730, 0x74A);
  (0x7A6, 0x7B0); (0x7EB, 0x7F5); (0x7FA, 0x7FA); (0x7FD, 0x7FD); (0x816, 0x82D); (0x859, 0x85B);
  (0x888, 0x888); (0x890, 0x891); (0x898, 0x89F); (0x8C9, 0x902); (0x93A, 0x93A); (0x93C, 0x93C);
  (0x941, 0x948); (0x94D, 0x94D); (0x951, 0x957); (0x962, 0x963); (0x971, 0x971); (0x981, 0x981);
  (0x9BC, 0x9BC); (0x9C1, 0x9C4); (0x9CD, 0x9CD); (0x9E2, 0x9E3); (0x9FE, 0x9FE); (0xA01, 0xA02);
  (0xA3C, 0xA3C); (0xA41, 0xA42); (0xA47, 0xA48); (0xA4B, 0xA4D); (0xA51, 0xA51); (0xA70, 0xA71);
  (0xA75, 0xA75); (0xA81, 0xA82); (0xABC, 0xABC); (0xAC1, 0xAC5); (0xAC7, 0xAC8); (0xACD, 0xACD);
  (0xAE2, 0xAE3); (0xAFA, 0xAFF); (0xB01, 0xB01); (0xB3C, 0xB3C); (0xB3F, 0xB3F); (0xB41, 0xB44);
  (0xB4D, 0xB4D); (0xB55, 0xB56); (0xB62, 0xB63); (0xB82, 0xB82); (0xBC0, 0xBC0); (0xBCD, 0xBCD);
  (0xC00, 0xC00); (0xC04, 0xC04); (0xC3C, 0xC3C); (0xC3E, 0xC40); (0xC46, 0xC48); (0xC4A, 0xC4D);
  (0xC55, 0xC56); (0xC62, 0xC63); (0xC81, 0xC81); (0xCBC, 0xCBC); (0xCBF, 0xCBF); (0xCC6, 0xCC6);
  (0xCCC, 0xCCD); (0xCE2, 0xCE3); (0xD00, 0xD01); (0xD3B, 0xD3C); (0xD41, 0xD44); (0xD4D, 0xD4D);
  (0xD62, 0xD63); (0xD81, 0xD81); (0xDCA, 0xDCA); (0xDD2, 0xDD4); (0xDD6, 0xDD6); (0xE31, 0xE31);
  (0xE34, 0xE3A); (0xE46, 0xE4E); (0xEB1, 0xEB1); (0xEB4, 0xEBC); (0xEC6, 0xEC6); (0xEC8, 0xECD);
  (0xF18, 0xF19); (0xF35, 0xF35); (0xF37, 0xF37); (0xF39, 0xF39); (0xF71, 0xF7E); (0xF80, 0xF84);
  (0xF86, 0xF87); (0xF8D, 0xF97); (0xF99, 0xFBC); (0xFC6, 0xFC6); (0x102D, 0x1030); (0x1032, 0x1037);
  (0x1039, 0x103A); (0x103D, 0x103E); (0x1058, 0x1059); (0x105E, 0x1060); (0x1071, 0x1074); (0x1082, 0x1082);
  (0x1085, 0x1086); (0x108D, 0x108D); (0x109D, 0x109D); (0x10FC, 0x10FC); (0x135D, 0x135F); (0x1712, 0x1714);
  (0x1732, 0x1733); (0x1752, 0x1753); (0x1772, 0x1773); (0x17B4, 0x17B5); (0x17B7, 0x17BD); (0x17C6, 0x17C6);
  (0x17C9, 0x17D3); (0x17D7, 0x17D7); (0x17DD, 0x17DD); (0x180B, 0x180F); (0x1843, 0x1843); (0x1885, 0x1886);
  (0x18A9, 0x18A9); (0x1920, 0x1922); (0x1927, 0x1928); (0x1932, 0x1932); (0x1939, 0x193B); (0x1A17, 0x1A18);
  (0x1A1B, 0x1A1B); (0x1A56, 0x1A56); (0x1A58, 0x1A5E); (0x1A60, 0x1A60); (0x1A62, 0x1A62); (0x1A65, 0x1A6C);
  (0x1A73, 0x1A7C); (0x1A7F, 0x1A7F); (0x1AA7, 0x1AA7); (0x1AB0, 0x1ACE); (0x1B00, 0x1B03); (0x1B34, 0x1B34);
  (0x1B36, 0x1B3A); (0x1B3C, 0x1B3C); (0x1B42, 0x1B42); (0x1B6B, 0x1B73); (0x1B80, 0x1B81); (0x1BA2, 0x1BA5);
  (0x1BA8, 0x1BA9); (0x1BAB, 0x1BAD); (0x1BE6, 0x1BE6); (0x1BE8, 0x1BE9); (0x1BED, 0x1BED); (0x1BEF, 0x1BF1);
  (0x1C2C, 0x1C33); (0x1C36, 0x1C37); (0x1C78, 0x1C7D); (0x1CD0, 0x1CD2); (0x1CD4, 0x1CE0); (0x1CE2, 0x1CE8);
  (0x1CED, 0x1CED); (0x1CF4, 0x1CF4); (0x1CF8, 0x1CF9); (0x1D2C, 0x1D6A); (0x1D78, 0x1D78); (0x1D9B, 0x1DFF);
  (0x1FBD, 0x1FBD); (0x1FBF, 0x1FC1); (0x1FCD, 0x1FCF); (0x1FDD, 0x1FDF); (0x1FED, 0x1FEF); (0x1FFD, 0x1FFE);
  (0x200B, 0x200F); (0x2018, 0x2019); (0x2024, 0x2024); (0x2027, 0x2027); (0x202A, 0x202E); (0x2060, 0x2064);
  (0x2066, 0x206F); (0x2071, 0x2071); (0x207F, 0x207F); (0x2090, 0x209C); (0x20D0, 0x20F0); (0x2C7C, 0x2C7D);
  (0x2CEF, 0x2CF1); (0x2D6F, 0x2D6F); (0x2D7F, 0x2D7F); (0x2DE0, 0x2DFF); (0x2E2F, 0x2E2F); (0x3005, 0x3005);
  (0x302A, 0x302D); (0x3031, 0x3035); (0x303B, 0x303B); (0x3099, 0x309E); (0x30FC, 0x30FE); (0xA015, 0xA015);
  (0xA4F8, 0xA4FD); (0xA60C, 0xA60C); (0xA66F, 0xA672); (0xA674, 0xA67D); (0xA67F, 0xA67F); (0xA69C, 0xA69F);
  (0xA6F0, 0xA6F1); (0xA700, 0xA721); (0xA770, 0xA770); (0xA788, 0xA78A); (0xA7F2, 0xA7F4); (0xA7F8, 0xA7F9);
  (0xA802, 0xA802); (0xA806, 0xA806); (0xA80B, 0xA80B); (0xA825, 0xA826); (0xA82C, 0xA82C); (0xA8C4, 0xA8C5);
  (0xA8E0, 0xA8F1); (0xA8FF, 0xA8FF); (0xA926, 0xA92D); (0xA947, 0xA951); (0xA980, 0xA982); (0xA9B3, 0xA9B3);
  (0xA9B6, 0xA9B9); (0xA9BC, 0xA9BD); (0xA9CF, 0xA9CF); (0xA9E5, 0xA9E6); (0xAA29, 0xAA2E); (0xAA31, 0xAA32);
  (0xAA35, 0xAA36); (0xAA43, 0xAA43); (0xAA4C, 0xAA4C); (0xAA70, 0xAA70); (0xAA7C, 0xAA7C); (0xAAB0, 0xAAB0);
  (0xAAB2, 0xAAB4); (0xAAB7, 0xAAB8); (0xAABE, 0xAABF); (0xAAC1, 0xAAC1); (0xAADD, 0xAADD); (0xAAEC, 0xAAED);
  (0xAAF3, 0xAAF4); (0xAAF6, 0xAAF6); (0xAB5B, 0xAB5F); (0xAB69, 0xAB6B); (0xABE5, 0xABE5); (0xABE8, 0xABE8);
  (0xABED, 0xABED); (0xFB1E, 0xFB1E); (0xFBB2, 0xFBC2); (0xFE00, 0xFE0F); (0xFE13, 0xFE13); (0xFE20, 0xFE2F);
  (0xFE52, 0xFE52); (0xFE55, 0xFE55); (0xFEFF, 0xFEFF); (0xFF07, 0xFF07); (0xFF0E, 0xFF0E); (0xFF1A, 0xFF1A);
  (0xFF3E, 0xFF3E); (0xFF40, 0xFF40); (0xFF70, 0xFF70); (0xFF9E, 0xFF9F); (0xFFE3, 0xFFE3); (0xFFF9, 0xFFFB);
  (0x101FD, 0x101FD); (0x102E0, 0x102E0); (0x10376, 0x1037A); (0x10780, 0x10785); (0x10787, 0x107B0); (0x107B2, 0x107BA);
  (0x10A01, 0x10A03); (0x10A05, 0x10A06); (0x10A0C, 0x10A0F); (0x10A38, 0x10A3A); (0x10A3F, 0x10A3F); (0x10AE5, 0x10AE6);
  (0x10D24, 0x10D27); (0x10EAB, 0x10EAC); (0x10F46, 0x10F50); (0x10F82, 0x10F85); (0x11001, 0x11001); (0x11038, 0x11046);
  (0x11070, 0x11070); (0x11073, 0x11074); (0x1107F, 0x11081); (0x110B3, 0x110B6); (0x110B9, 0x110BA); (0x110BD, 0x110BD);
  (0x110C2, 0x110C2); (0x110CD, 0x110CD); (0x11100, 0x11102); (0x11127, 0x1112B); (0x1112D, 0x11134); (0x11173, 0x11173);
  (0x11180, 0x11181); (0x111B6, 0x111BE); (0x111C9, 0x111CC); (0x111CF, 0x111CF); (0x1122F, 0x11231); (0x11234, 0x11234);
  (0x11236, 0x11237); (0x1123E, 0x1123E); (0x112DF, 0x112DF); (0x112E3, 0x112EA); (0x11300, 0x11301); (0x1133B, 0x1133C);
  (0x11340, 0x11340); (0x11366, 0x1136C); (0x11370, 0x11374); (0x11438, 0x1143F); (0x11442, 0x11444); (0x11446, 0x11446);
  (0x1145E, 0x1145E); (0x114B3, 0x114B8); (0x114BA, 0x114BA); (0x114BF, 0x114C0); (0x114C2, 0x114C3); (0x115B2, 0x115B5);
  (0x115BC, 0x115BD); (0x115BF, 0x115C0); (0x115DC, 0x115DD); (0x11633, 0x1163A); (0x1163D, 0x1163D); (0x1163F, 0x11640);
  (0x116AB, 0x116AB); (0x116AD, 0x116AD); (0x116B0, 0x116B5); (0x116B7, 0x116B7); (0x1171D, 0x1171F); (0x11722, 0x11725);
  (0x11727, 0x1172B); (0x1182F, 0x11837); (0x11839, 0x1183A); (0x1193B, 0x1193C); (0x1193E, 0x1193E); (0x11943, 0x11943);
  (0x119D4, 0x119D7); (0x119DA, 0x119DB); (0x119E0, 0x119E0); (0x11A01, 0x11A0A); (0x11A33, 0x11A38); (0x11A3B, 0x11A3E);
  (0x11A47, 0x11A47); (0x11A51, 0x11A56); (0x11A59, 0x11A5B); (0x11A8A, 0x11A96); (0x11A98, 0x11A99); (0x11C30, 0x11C36);
  (0x11C38, 0x11C3D); (0x11C3F, 0x11C3F); (0x11C92, 0x11CA7); (0x11CAA, 0x11CB0); (0x11CB2, 0x11CB3); (0x11CB5, 0x11CB6);
  (0x11D31, 0x11D36); (0x11D3A, 0x11D3A); (0x11D3C, 0x11D3D); (0x11D3F, 0x11D45); (0x11D47, 0x11D47); (0x11D90, 0x11D91);
  (0x11D95, 0x11D95); (0x11D97, 0x11D97); (0x11EF3, 0x11EF4); (0x13430, 0x13438); (0x16AF0, 0x16AF4); (0x16B30, 0x16B36);
  (0x16B40, 0x16B43); (0x16F4F, 0x16F4F); (0x16F8F, 0x16F9F); (0x16FE0, 0x16FE1); (0x16FE3, 0x16FE4); (0x1AFF0, 0x1AFF3);
  (0x1AFF5, 0x1AFFB); (0x1AFFD, 0x1AFFE); (0x1BC9D, 0x1BC9E); (0x1BCA0, 0x1BCA3); (0x1CF00, 0x1CF2D); (0x1CF30, 0x1CF46);
  (0x1D167, 0x1D169); (0x1D173, 0x1D182); (0x1D185, 0x1D18B); (0x1D1AA, 0x1D1AD); (0x1D242, 0x1D244); (0x1DA00, 0x1DA36);
  (0x1DA3B, 0x1DA6C); (0x1DA75, 0x1DA75); (0x1DA84, 0x1DA84); (0x1DA9B, 0x1DA9F); (0x1DAA1, 0x1DAAF); (0x1E000, 0x1E006);
  (0x1E008, 0x1E018); (0x1E01B, 0x1E021); (0x1E023, 0x1E024); (0x1E026, 0x1E02A); (0x1E130, 0x1E13D); (0x1E2AE, 0x1E2AE);
  (0x1E2EC, 0x1E2EF); (0x1E8D0, 0x1E8D6); (0x1E944, 0x1E94B); (0x1F3FB, 0x1F3FF); (0xE0001, 0xE0001); (0xE0020, 0xE007F);
  (0xE0100, 0xE01EF)].

Definition cased_ranges : list (Z * Z) := [
  (0x41, 0x5A); (0x61, 0x7A); (0xAA, 0xAA); (0xB5, 0xB5); (0xBA, 0xBA); (0xC0, 0xD6);
  (0xD8, 0xF6); (0xF8, 0x1BA); (0x1BC, 0x1BF); (0x1C4, 0x293); (0x295, 0x2AF); (0x370, 0x373);
  (0x376, 0x377); (0x37B, 0x37D); (0x37F, 0x37F); (0x386, 0x386); (0x388, 0x38A); (0x38C, 0x38C);
  (0x38E, 0x3A1); (0x3A3, 0x3F5); (0x3F7, 0x481); (0x48A, 0x52F); (0x531, 0x556); (0x560, 0x588);
  (0x10A0, 0x10C5); (0x10C7, 0x10C7); (0x10CD, 0x10CD); (0x10D0, 0x10FA); (0x10FD, 0x10FF); (0x13A0, 0x13F5);
  (0x13F8, 0x13FD); (0x1C80, 0x1C88); (0x1C90, 0x1CBA); (0x1CBD, 0x1CBF); (0x1D00, 0x1D2B); (0x1D6B, 0x1D77);
  (0x1D79, 0x1D9A); (0x1E00, 0x1F15); (0x1F18, 0x1F1D); (0x1F20, 0x1F45); (0x1F48, 0x1F4D); (0x1F50, 0x1F57);
  (0x1F59, 0x1F59); (0x1F5B, 0x1F5B); (0x1F5D, 0x1F5D); (0x1F5F, 0x1F7D); (0x1F80, 0x1FB4); (0x1FB6, 0x1FBC);
  (0x1FBE, 0x1FBE); (0x1FC2, 0x1FC4); (0x1FC6, 0x1FCC); (0x1FD0, 0x1FD3); (0x1FD6, 0x1FDB); (0x1FE0, 0x1FEC);
  (0x1FF2, 0x1FF4); (0x1FF6, 0x1FFC); (0x2102, 0x2102); (0x2107, 0x2107); (0x210A, 0x2113); (0x2115, 0x2115);
  (0x2119, 0x211D); (0x2124, 0x2124); (0x2126, 0x2126); (0x2128, 0x2128); (0x212A, 0x212D); (0x212F, 0x2134);
  (0x2139, 0x2139); (0x213C, 0x213F); (0x2145, 0x2149); (0x214E, 0x214E); (0x2160, 0x217F); (0x2183, 0x2184);
  (0x24B6, 0x24E9); (0x2C00, 0x2C7B); (0x2C7E, 0x2CE4); (0x2CEB, 0x2CEE); (0x2CF2, 0x2CF3); (0x2D00, 0x2D25);
  (0x2D27, 0x2D27); (0x2D2D, 0x2D2D); (0xA640, 0xA66D); (0xA680, 0xA69B); (0xA722, 0xA76F); (0xA771, 0xA787);
  (0xA78B, 0xA78E); (0xA790, 0xA7CA); (0xA7D0, 0xA7D1); (0xA7D3, 0xA7D3); (0xA7D5, 0xA7D9); (0xA7F5, 0xA7F6);
  (0xA7FA, 0xA7FA); (0xAB30, 0xAB5A); (0xAB60, 0xAB68); (0xAB70, 0xABBF); (0xFB00, 0xFB06); (0xFB13, 0xFB17);
  (0xFF21, 0xFF3A); (0xFF41, 0xFF5A); (0x10400, 0x1044F); (0x104B0, 0x104D3); (0x104D8, 0x104FB); (0x10570, 0x1057A);
  (0x1057C, 0x1058A); (0x1058C, 0x10592); (0x10594, 0x10595); (0x10597, 0x105A1); (0x105A3, 0x105B1); (0x105B3, 0x105B9);
  (0x105BB, 0x105BC); (0x10C80, 0x10CB2); (0x10CC0, 0x10CF2); (0x118A0, 0x118DF); (0x16E40, 0x16E7F); (0x1D400, 0x1D454);
  (0x1D456, 0x1D49C); (0x1D49E, 0x1D49F); (0x1D4A2, 0x1D4A2); (0x1D4A5, 0x1D4A6); (0x1D4A9, 0x1D4AC); (0x1D4AE, 0x1D4B9);
  (0x1D4BB, 0x1D4BB); (0x1D4BD, 0x1D4C3); (0x1D4C5, 0x1D505); (0x1D507, 0x1D50A); (0x1D50D, 0x1D514); (0x1D516, 0x1D51C);
  (0x1D51E, 0x1D539); (0x1D53B, 0x1D53E); (0x1D540, 0x1D544); (0x1D546, 0x1D546); (0x1D54A, 0x1D550); (0x1D552, 0x1D6A5);
  (0x1D6A8, 0x1D6C0); (0x1D6C2, 0x1D6DA); (0x1D6DC, 0x1D6FA); (0x1D6FC, 0x1D714); (0x1D716, 0x1D734); (0x1D736, 0x1D74E);
  (0x1D750, 0x1D76E); (0x1D770, 0x1D788); (0x1D78A, 0x1D7A8); (0x1D7AA, 0x1D7C2); (0x1D7C4, 0x1D7CB); (0x1DF00, 0x1DF09);
  (0x1DF0B, 0x1DF1E); (0x1E900, 0x1E943); (0x1F130, 0x1F149); (0x1F150, 0x1F169); (0x1F170, 0x1F189)].

Fixpoint run_delta (rs : list (Z * Z * Z * Z)) (c : Z) : Z :=
  match rs with
  | [] => 0
  | (lo, hi, step, d) :: rs' =>
      if (lo <=? c) && (c <=? hi) && (Z.modulo (c - lo) step =? 0) then d
      else run_delta rs' c
  end.

(** The full lower-case mapping of one code point, apart from the
    context-dependent capital sigma: U+0130 is the one code point that
    lower-cases to two. *)
Definition lower_full (c : Z) : pystr :=
  if c =? 0x130 then [0x69; 0x307] else [c + run_delta lower_runs c].

Definition is_case_ignorable (c : Z) : bool := in_ranges case_ignorable_ranges c.
Definition is_cased (c : Z) : bool := in_ranges cased_ranges c.

(** The Final_Sigma condition for a capital sigma, given the code points
    before it (nearest first) and after it. *)
Definition final_sigma (before_rev after : pystr) : bool :=
  match lstrip_by is_case_ignorable before_rev with
  | c :: _ =>
      is_cased c &&
      match lstrip_by is_case_ignorable after with
      | [] => true
      | d :: _ => negb (is_cased d)
      end
  | [] => false
  end.

Fixpoint lower_from (before_rev s : pystr) : pystr :=
  match s with
  | [] => []
  | c :: s' =>
      (if c =? 0x3A3 then [if final_sigma before_rev s' then 0x3C2 else 0x3C3]
       else lower_full c) ++ lower_from (c :: before_rev) s'
  end.

(** [s.lower()]. *)
Definition py_lower (s : pystr) : pystr := lower_from [] s.

(* ------------------------------------------------------------------ *)
(** ** Exceptions, stdout, stdin and the operating system *)

(** The [errno] of a failed system call.  Python raises [OSError] with
    it, as the subclass [FileNotFoundError] for [ENOENT],
    [PermissionError] for [EACCES] and [EPERM], [NotADirectoryError] for
    [ENOTDIR], [IsADirectoryError] for [EISDIR]. *)
Inductive errno :=
  | ENOENT | EACCES | EPERM | ENOTDIR | EISDIR | EROFS | ENAMETOOLONG | ELOOP
  | ETXTBSY | EIO | ENOSPC | EDQUOT | Errno_other (n : Z).

(** The messages of the [ValueError]s that arise inside [binary_write]. *)
Inductive value_error_msg :=
  | VE_negative_offset                     (* "Offset must be non-negitive" *)
  | VE_value_exceeds (max_value : Z)       (* "Value must no exceed max value:..." *)
  | VE_beyond_eof (offset file_size : Z)   (* "Offset:... is beyound end of file ..." *)
  | VE_bytes_range                         (* bytes(): "bytes must be in range(0, 256)" *)
  | VE_path_encode                         (* os.fsencode: UnicodeEncodeError *)
  | VE_null_byte                           (* open(): "embedded null byte" *)
  | VE_not_seekable.                       (* io.UnsupportedOperation: "File or stream is not seekable." *)

(** [UnicodeDecodeError] is a [ValueError] too; it only arises in
    [input], outside every [try]. *)
Inductive py_exc :=
  | ValueError (m : value_error_msg)
  | OSError (e : errno)
  | KeyError
  | EOFError
  | UnicodeDecodeError
  | RecursionError
  | SystemExit (code : Z).

(** One line printed to stdout. *)
Inductive out_line :=
  | L_text (s : string)                    (* a literal of the source *)
  | L_wrote (value offset : Z)             (* "\nWrote value:{value} to offset:{offset}\n" *)
  | L_file_not_found (path : pystr)        (* "File not found: {file_path}" *)
  | L_value_error (m : value_error_msg)    (* "Value Error: {err}" *)
  | L_os_error (e : errno)                 (* "OS Error: {err}" *)
  | L_clear.                               (* os.system('cls' / 'clear') *)

(** What the process may do with a regular file: open it for reading
    and writing; or not open it at all (permissions for this user, a
    read-only mount, a running executable, ...); or open it but have the
    write of its data fail (an I/O error, a full disk or quota). *)
Inductive file_access :=
  | Read_write
  | Open_refused (e : errno)
  | Write_refused (e : errno).

Record pfile := mk_pfile {
  access : file_access;
  contents : list Byte.byte
}.

Definition writable (f : pfile) : bool :=
  match access f with Read_write => true | _ => false end.

Definition opens (f : pfile) : bool :=
  match access f with Open_refused _ => false | _ => true end.

(** What [open(path)] finds at a path, after the OS has resolved it:
    a regular file (by inode); nothing, with the error of the lookup
    ([ENOENT], [ENOTDIR], [ENAMETOOLONG], [ELOOP], [EACCES], ...); or
    another kind of file (a directory, FIFO, terminal, socket), which
    either fails to open with an error or opens as an unseekable
    stream.  A seekable device counts as a regular file. *)
Inductive path_entry :=
  | Regular (i : positive)
  | Missing (e : errno)
  | Special (open_error : option errno).

(** The outcome of one call of [input]: a line, or bytes the strict
    decoder of [sys.stdin] rejects (a decoder that reads ahead may report
    them at an earlier call than the line they belong to, so the items
    are the calls' outcomes, not the lines of the stream).  Under the
    surrogateescape handler every line decodes. *)
Inductive stdin_item :=
  | In_line (s : pystr)
  | In_undecodable.

Record world := mk_world {
  paths : pystr -> path_entry;
  files : gmap positive pfile;
  stdout : list out_line;
  stdin : list stdin_item
}.

Inductive result (A : Type) :=
  | Ok (a : A)
  | Err (e : py_exc).
Arguments Ok {A} a.
Arguments Err {A} e.

Definition M (A : Type) : Type := world -> result A * world.

Global Instance M_ret : MRet M := fun A a w => (Ok a, w).
Global Instance M_bind : MBind M := fun A B k m w =>
  match m w with
  | (Ok a, w') => k a w'
  | (Err e, w') => (Err e, w')
  end.

Definition raise {A} (e : py_exc) : M A := fun w => (Err e, w).

(** [try: body except ...]: [h] handles the exception or re-raises it. *)
Definition try_except {A} (body : M A) (h : py_exc -> M A) : M A := fun w =>
  match body w with
  | (Ok a, w') => (Ok a, w')
  | (Err e, w') => h e w'
  end.

Definition print (l : out_line) : M unit := fun w =>
  (Ok tt, mk_world (paths w) (files w) (stdout w ++ [l]) (stdin w)).

(** [os.fsencode] (UTF-8 with surrogateescape) encodes every code point
    but the surrogates outside U+DC80..U+DCFF. *)
Definition fs_encodable (c : Z) : bool :=
  negb ((0xD800 <=? c) && (c <=? 0xDFFF) && negb ((0xDC80 <=? c) && (c <=? 0xDCFF))).

Definition has_nul (path : pystr) : bool := existsb (fun c => c =? 0) path.

(** [open(file_path, "rb+")]: encode the path, refuse an embedded NUL,
    then [open(2)] with [O_RDWR] (no [O_CREAT]: nothing is created, and
    the file is not truncated); a buffered stream checks that the file
    is seekable.  The handle is the inode. *)
Definition open_result (path : pystr) (w : world) : result positive :=
  if negb (forallb fs_encodable path) then Err (ValueError VE_path_encode)
  else if has_nul path then Err (ValueError VE_null_byte)
  else match paths w path with
       | Missing e => Err (OSError e)
       | Special (Some e) => Err (OSError e)
       | Special None => Err (ValueError VE_not_seekable)
       | Regular i =>
           match files w !! i with
           | None => Err (OSError ENOENT)
           | Some f => match access f with
                       | Open_refused e => Err (OSError e)
                       | _ => Ok i
                       end
           end
       end.

Definition open_rbplus (path : pystr) : M positive := fun w => (open_result path w, w).

(** [f.seek(0, 2); f.tell()]: the file size. *)
Definition seek_end_tell (h : positive) : M Z := fun w =>
  match files w !! h with
  | Some f => (Ok (Z.of_nat (length (contents f))), w)
  | None => (Ok 0, w)
  end.

(** Writing [bs] at position [pos] of [c]: overwrite in place, padding with
    zero bytes if [pos] lies past the end (as a POSIX file write does). *)
Definition overwrite_at (c : list Byte.byte) (pos : nat) (bs : list Byte.byte) : list Byte.byte :=
  take pos c ++ replicate (pos - length c) Byte.x00 ++ bs ++ drop (pos + length bs) c.

(** [f.seek(offset); f.write(bs); f.close()]: the buffered write reaches
    the file when [close] flushes it, or the flush raises the error of
    the file. *)
Definition seek_write_close (h : positive) (offset : Z) (bs : list Byte.byte) : M unit := fun w =>
  match files w !! h with
  | Some f =>
      match access f with
      | Write_refused e => (Err (OSError e), w)
      | _ =>
          (Ok tt, mk_world (paths w)
                    (<[h := mk_pfile (access f) (overwrite_at (contents f) (Z.to_nat offset) bs)]>
                       (files w))
                    (stdout w) (stdin w))
      end
  | None => (Ok tt, w)
  end.

(** [bytes([v1, ..., vn])]: each element must lie in [range(0, 256)]. *)
Fixpoint py_bytes (vs : list Z) : M (list Byte.byte) :=
  match vs with
  | [] => mret []
  | v :: vs' =>
      match Byte.of_N (Z.to_N v) with
      | Some b => if (0 <=? v) then bs ← py_bytes vs'; mret (b :: bs)
                  else raise (ValueError VE_bytes_range)
      | None => raise (ValueError VE_bytes_range)
      end
  end.

(* ------------------------------------------------------------------ *)
(** ** [binary_write] (lines 104-147) *)

(** The body of the [try] block. *)
Definition binary_write_body (value max_value offset : Z) (file_path : pystr) : M unit :=
  if offset <? 0 then raise (ValueError VE_negative_offset) else
  if negb ((0 <=? value) && (value <=? max_value))
  then raise (ValueError (VE_value_exceeds max_value)) else
  f ← open_rbplus file_path;
  file_size ← seek_end_tell f;
  if offset >=? file_size then raise (ValueError (VE_beyond_eof offset file_size)) else
  bs ← py_bytes [value];
  seek_write_close f offset bs;;
  print (L_wrote value offset).

(** The [except] clauses, in source order: [FileNotFoundError] (an
    [OSError] with [ENOENT]), then [ValueError] (which also catches
    [io.UnsupportedOperation]), then [OSError]; anything else escapes. *)
Definition binary_write_handler (file_path : pystr) (e : py_exc) : M unit :=
  match e with
  | OSError ENOENT => print (L_file_not_found file_path)
  | ValueError m => print (L_value_error m)
  | OSError err => print (L_os_error err)
  | _ => raise e
  end.

Definition binary_write (value max_value offset : Z) (file_path : pystr) : M unit :=
  try_except (binary_write_body value max_value offset file_path)
             (binary_write_handler file_path).

(* ------------------------------------------------------------------ *)
(** ** [clean_file_path] (lines 149-166) and [pathlib.Path] *)

(** A [pathlib.Path] keeps the string handed to its constructor; [str]
    of it gives the normalised form (below). *)
Record Path := mk_Path { path_arg : pystr }.

(** The double and the single quote character. *)
Definition quote_double : Z := 34.
Definition quote_single : Z := 39.

Definition clean_file_path (raw_path : pystr) : Path :=
  let cleaned := py_strip raw_path in
  let cleaned := if py_startswith (str_of "& ") cleaned then drop 2 cleaned else cleaned in
  let cleaned := py_strip_char quote_single (py_strip_char quote_double cleaned) in
  mk_Path cleaned.

Definition slash : Z := 47.
Definition dot : Z := 46.

(** [s.split(sep)] for a one-character separator. *)
Fixpoint split_on (sep : Z) (s : pystr) : list pystr :=
  match s with
  | [] => [[]]
  | c :: s' =>
      if c =? sep then [] :: split_on sep s'
      else match split_on sep s' with
           | part :: parts => (c :: part) :: parts
           | [] => [[c]]
           end
  end.

(** [sep.join(parts)]. *)
Fixpoint join_on (sep : Z) (parts : list pystr) : pystr :=
  match parts with
  | [] => []
  | [p] => p
  | p :: parts' => p ++ sep :: join_on sep parts'
  end.

(** [PurePosixPath] ([pathlib], Python 3.11): the root is "//" for
    exactly two leading slashes, "/" for one or three and more, and
    empty otherwise; the rest is split at the slashes, dropping empty
    and "." components. *)
Definition posix_splitroot (s : pystr) : pystr * pystr :=
  match s with
  | c :: _ =>
      if c =? slash then
        let rel := lstrip_by (fun x => x =? slash) s in
        if (length s - length rel =? 2)%nat then ([slash; slash], rel) else ([slash], rel)
      else ([], s)
  | [] => ([], s)
  end.

Definition path_parts (rel : pystr) : list pystr :=
  filter (fun part => part <> [] /\ part <> [dot]) (split_on slash rel).

(** [str(path)]: the root followed by the components joined with "/",
    or "." when both are empty. *)
Definition path_str (p : Path) : pystr :=
  let (root, rel) := posix_splitroot (path_arg p) in
  match root ++ join_on slash (path_parts rel) with
  | [] => [dot]
  | s => s
  end.

(* ------------------------------------------------------------------ *)
(** ** Terminal I/O and the menus (lines 168-283) *)

(** [input(prompt)]: echo the prompt, then return the line of the call,
    raise [EOFError] at end of input, or [UnicodeDecodeError]. *)
Definition input (prompt : string) : M pystr := fun w =>
  let w' := mk_world (paths w) (files w) (stdout w ++ [L_text prompt]) in
  match stdin w with
  | [] => (Err EOFError, w' [])
  | In_line l :: rest => (Ok l, w' rest)
  | In_undecodable :: rest => (Err UnicodeDecodeError, w' rest)
  end.

Definition clear_screen : M unit := print L_clear.

(** [quit(0)] raises [SystemExit(0)]. *)
Definition quit (code : Z) : M unit := raise (SystemExit code).

(** [OFFSETS[character.name][character.attributes]]. *)
Definition lookup_offset (c : game_character) : M Z :=
  match OFFSETS (name c) with
  | None => raise KeyError
  | Some inner => match inner (attrs c) with
                  | None => raise KeyError
                  | Some o => mret o
                  end
  end.

(** [ATTRIBUTE_VALUES[character.attributes]]. *)
Definition lookup_value (c : game_character) : M Z :=
  match ATTRIBUTE_VALUES (attrs c) with
  | None => raise KeyError
  | Some v => mret v
  end.

(** Both menus recurse on invalid input and after every action.  [fuel]
    is the remaining Python recursion depth: when it runs out the
    interpreter raises [RecursionError].  The statements after a
    recursive call are kept even though the recursion never returns
    normally.  A [match] on a string compares with [==]. *)
Fixpoint main_menu (fuel : nat) (file_path : Path) : M unit :=
  match fuel with
  | O => raise RecursionError
  | S fuel' =>
      let character := mk_game_character None None in
      print (L_text "Select your Character:");;
      print (L_text "[1] Drake");;
      print (L_text "[2] Farely");;
      print (L_text "[0] Exit");;
      raw ← input "> ";
      let choice := py_lower (py_strip raw) in
      character ←
        (if bool_decide (choice = str_of "0") then
           print (L_text "BYE!!");; quit 0;; mret character
         else if bool_decide (choice = str_of "1") then
           mret (mk_game_character (Some Drake) (attrs character))
         else if bool_decide (choice = str_of "2") then
           mret (mk_game_character (Some Farley) (attrs character))
         else
           print (L_text "Selection not found");;
           main_menu fuel' file_path;;
           mret character);
      edit_menu fuel' character file_path
  end
with edit_menu (fuel : nat) (character : game_character) (file_path : Path) : M unit :=
  match fuel with
  | O => raise RecursionError
  | S fuel' =>
      print (L_text "What would you like to modify?");;
      print (L_text "[1] Health");;
      print (L_text "[0] Back");;
      raw ← input "> ";
      let choice := py_lower (py_strip raw) in
      character ←
        (if bool_decide (choice = str_of "0") then
           clear_screen;; main_menu fuel' file_path;; mret character
         else if bool_decide (choice = str_of "1") then
           mret (mk_game_character (name character) (Some health))
         else
           edit_menu fuel' character file_path;; mret character);
      offset ← lookup_offset character;
      value ← lookup_value character;
      binary_write value 255 offset (path_str file_path);;
      edit_menu fuel' character file_path
  end.

(** Exit status of the interpreter for the outcome of the top-level call:
    [SystemExit(code)] exits with [code], any other uncaught exception
    prints a traceback and exits with status 1. *)
Definition exit_status {A} (r : result A) : Z :=
  match r with
  | Ok _ => 0
  | Err (SystemExit code) => code
  | Err _ => 1
  end.

(* ------------------------------------------------------------------ *)
(** ** [main] (lines 15-29 and 285-300) *)

Definition version : string := "1.0".

Definition banner : string :=
  "

 ____  _                   _
/ ___|| |_ ___  _ __   ___| | _____  ___ _ __
\___ \| __/ _ \| '_ \ / _ \ |/ / _ \/ _ \ '_ \
 ___) | || (_) | | | |  __/   <  __/  __/ |_) |
|____/ \__\___/|_| |_|\___|_|\_\___|\___| .__/
  ____                        _____    _|_|_
 / ___| __ _ _ __ ___   ___  | ____|__| (_) |_ ___  _ __
| |  _ / _` | '_ ` _ \ / _ \ |  _| / _` | | __/ _ \| '__|
| |_| | (_| | | | | | |  __/ | |__| (_| | | || (_) | |
 \____|\__,_|_| |_| |_|\___| |_____\__,_|_|\__\___/|_|
Version:" ++ version ++ "
".

(** [main()]: one more interpreter frame, below [main_menu]. *)
Definition main (fuel : nat) : M unit :=
  match fuel with
  | O => raise RecursionError
  | S fuel' =>
      clear_screen;;
      print (L_text banner);;
      raw_path ← input "Drag and drop a save file here, then press Enter:";
      let file_path := clean_file_path raw_path in
      clear_screen;;
      main_menu fuel' file_path
  end.

(* ------------------------------------------------------------------ *)
(** ** Summaries used by the proofs *)

(** The regular file that [open] reaches at [path], if the path passes
    the encoding and NUL checks. *)
Definition resolve (w : world) (path : pystr) : option positive :=
  if forallb fs_encodable path && negb (has_nul path) then
    match paths w path with
    | Regular i => Some i
    | _ => None
    end
  else None.

(** The effect of [binary_write] on the file it concerns. *)
Definition patch_file (value max_value offset : Z) (f : pfile) : pfile :=
  if writable f && (0 <=? offset) && (offset <? Z.of_nat (length (contents f)))
     && (0 <=? value) && (value <=? max_value)
  then match Byte.of_N (Z.to_N value) with
       | Some b => mk_pfile (access f) (<[Z.to_nat offset := b]> (contents f))
       | None => f
       end
  else f.

(** The files after [binary_write] (shown equal to the monadic
    definition below). *)
Definition binary_write_files (value max_value offset : Z) (path : pystr) (w : world)
    : gmap positive pfile :=
  match resolve w path with
  | Some i => alter (patch_file value max_value offset) i (files w)
  | None => files w
  end.

(** [f'] is [f] with at most bytes 340 and 99999 set to 0xFF. *)
Definition health_patched (o o' : option pfile) : Prop :=
  match o, o' with
  | None, None => True
  | Some f, Some f' =>
      access f' = access f /\ length (contents f') = length (contents f) /\
      forall k, contents f' !! k = contents f !! k \/
                ((Z.of_nat k = 340 \/ Z.of_nat k = 99999) /\ contents f' !! k = Some Byte.xff)
  | _, _ => False
  end.

(** [m'] differs from [m] at most in the bytes 340 and 99999 of the file
    [target], which are then 0xFF; files keep their presence, size and
    access. *)
Definition only_health_bytes (target : option positive) (m m' : gmap positive pfile) : Prop :=
  (forall j, target <> Some j -> m' !! j = m !! j) /\
  (forall j, target = Some j -> health_patched (m !! j) (m' !! j)).

(** First and last character of a string. *)
Definition first_char (s : pystr) : option Z :=
  match s with
  | [] => None
  | c :: _ => Some c
  end.

Definition last_char (s : pystr) : option Z := first_char (reverse s).

(** [s] between two copies of the character [q]. *)
Definition wrap (q : Z) (s : pystr) : pystr := q :: s ++ [q].

(** The world after a menu has printed its lines and read one line. *)
Definition after_prompt (w : world) (lines : list out_line) (rest : list stdin_item) : world :=
  mk_world (paths w) (files w) (stdout w ++ lines) rest.

Definition main_menu_lines : list out_line :=
  [L_text "Select your Character:"; L_text "[1] Drake"; L_text "[2] Farely";
   L_text "[0] Exit"; L_text "> "].

Definition edit_menu_lines : list out_line :=
  [L_text "What would you like to modify?"; L_text "[1] Health"; L_text "[0] Back";
   L_text "> "].

(** A save file of 1000 zero bytes at "STONEKEEP.SAV", with the answers
    a POSIX system gives for other paths. *)
Definition sav_path : pystr := str_of "STONEKEEP.SAV".

Definition sav_paths (p : pystr) : path_entry :=
  if bool_decide (p = sav_path) then Regular 1
  else if py_startswith (sav_path ++ [slash]) p then Missing ENOTDIR
  else Missing ENOENT.

Definition sav_1000 : pfile := mk_pfile Read_write (replicate 1000 Byte.x00).

Definition world_with (f : pfile) (inp : list stdin_item) : world :=
  mk_world sav_paths {[ 1%positive := f ]} [] inp.

Definition world_1000 : world := world_with sav_1000 [].

(** The world after a successful write of byte [b] at [offset] of [f]. *)
Definition write_world (w : world) (i : positive) (f : pfile) (offset : Z)
    (b : Byte.byte) (value : Z) : world :=
  mk_world (paths w)
           (<[i := mk_pfile (access f) (overwrite_at (contents f) (Z.to_nat offset) [b])]> (files w))
           (stdout w ++ [L_wrote value offset]) (stdin w).

(* ================================================================== *)
(** * Properties *)

(** ** Unfolding [open] and [binary_write] *)

Lemma writable_access (f : pfile) : writable f = true -> access f = Read_write.
Proof. unfold writable. destruct (access f); congruence. Qed.

Lemma open_result_ok (path : pystr) (w : world) (i : positive) :
  open_result path w = Ok i <->
  resolve w path = Some i /\ exists f, files w !! i = Some f /\ opens f = true.
Proof.
  unfold open_result, resolve, opens.
  destruct (forallb fs_encodable path); simpl; [|split; [discriminate|intros [[=] _]]].
  destruct (has_nul path); simpl; [split; [discriminate|intros [[=] _]]|].
  destruct (paths w path) as [j|e|[e|]]; try (split; [discriminate|intros [[=] _]]).
  destruct (files w !! j) as [f|] eqn:Hf.
  - destruct (access f) eqn:Ha.
    + split; [intros [= <-]; split; [reflexivity|exists f; rewrite Ha; auto]
             |intros [[= <-] _]; reflexivity].
    + split; [discriminate|]. intros [[= <-] (f' & Hf' & Ho)].
      rewrite Hf in Hf'. injection Hf' as <-. rewrite Ha in Ho. discriminate.
    + split; [intros [= <-]; split; [reflexivity|exists f; rewrite Ha; auto]
             |intros [[= <-] _]; reflexivity].
  - split; [discriminate|]. intros [[= <-] (f' & Hf' & _)]. congruence.
Qed.

Lemma open_result_err (path : pystr) (w : world) (e : py_exc) :
  open_result path w = Err e -> (exists m, e = ValueError m) \/ (exists err, e = OSError err).
Proof.
  unfold open_result.
  repeat match goal with
         | |- context [if ?c then _ else _] => destruct c
         | |- context [match ?x with _ => _ end] =>
             lazymatch x with
             | paths _ _ => destruct x as [?|?|[?|]]
             | files _ !! _ => destruct x
             | access _ => destruct x
             end
         end; intros [= <-]; eauto.
Qed.

(** A path the open check lets through reaches the file [resolve] names. *)
Lemma open_result_resolve (path : pystr) (w : world) (i : positive) (f : pfile) :
  resolve w path = Some i -> files w !! i = Some f -> opens f = true ->
  open_result path w = Ok i.
Proof. intros Hr Hf Ho. apply open_result_ok. eauto. Qed.

Lemma binary_write_body_eq value max_value offset path w :
  binary_write_body value max_value offset path w =
  if offset <? 0 then (Err (ValueError VE_negative_offset), w)
  else if negb ((0 <=? value) && (value <=? max_value))
  then (Err (ValueError (VE_value_exceeds max_value)), w)
  else match open_result path w with
       | Err e => (Err e, w)
       | Ok i =>
           match files w !! i with
           | None => (Err (ValueError (VE_beyond_eof offset 0)), w)
           | Some f =>
               if offset >=? Z.of_nat (length (contents f))
               then (Err (ValueError (VE_beyond_eof offset (Z.of_nat (length (contents f))))), w)
               else match Byte.of_N (Z.to_N value) with
                    | Some b =>
                        if 0 <=? value then
                          match access f with
                          | Write_refused e => (Err (OSError e), w)
                          | _ => (Ok tt, write_world w i f offset b value)
                          end
                        else (Err (ValueError VE_bytes_range), w)
                    | None => (Err (ValueError VE_bytes_range), w)
                    end
           end
       end.
Proof.
  unfold binary_write_body.
  destruct (offset <? 0) eqn:Hneg; [reflexivity|].
  destruct (negb _); [reflexivity|].
  cbv [mbind M_bind mret M_ret open_rbplus].
  destruct (open_result path w) as [i|e]; [|reflexivity].
  unfold seek_end_tell.
  destruct (files w !! i) as [f|] eqn:Hf.
  - destruct (offset >=? _); [reflexivity|]. simpl.
    destruct (Byte.of_N (Z.to_N value)) as [b|]; [|reflexivity].
    destruct (0 <=? value); [|reflexivity]. simpl.
    unfold seek_write_close, write_world. rewrite Hf.
    destruct (access f) eqn:Ha; rewrite ?Ha; reflexivity.
  - apply Z.ltb_ge in Hneg.
    replace (offset >=? 0) with true by (symmetry; rewrite Z.geb_leb; apply Z.leb_le; lia).
    reflexivity.
Qed.

Lemma binary_write_eq value max_value offset path w :
  binary_write value max_value offset path w =
  match binary_write_body value max_value offset path w with
  | (Ok a, w') => (Ok a, w')
  | (Err e, w') => binary_write_handler path e w'
  end.
Proof. reflexivity. Qed.

Ltac destruct_body :=
  repeat match goal with
         | |- context [if ?c then _ else _] => destruct c
         | |- context [match ?x with _ => _ end] =>
             lazymatch x with
             | open_result _ _ => let Ho := fresh "Ho" in destruct x eqn:Ho
             | files _ !! _ => destruct x
             | Byte.of_N _ => destruct x
             | access _ => destruct x
             end
         end.

(** Every failure of the body is one the [except] clauses handle, and a
    failing body leaves the world as it was. *)
Lemma binary_write_body_err value max_value offset path w e w' :
  binary_write_body value max_value offset path w = (Err e, w') ->
  w' = w /\ ((exists m, e = ValueError m) \/ (exists err, e = OSError err)).
Proof.
  rewrite binary_write_body_eq. destruct_body; intros H; inversion H; subst;
    (split; [reflexivity|]); eauto using open_result_err.
Qed.

(** Bytes in range convert. *)
Lemma byte_of_value (value : Z) :
  0 <= value <= 255 -> exists b, Byte.of_N (Z.to_N value) = Some b /\ Z.of_N (Byte.to_N b) = value.
Proof.
  intros Hv.
  destruct (Byte.of_N (Z.to_N value)) as [b|] eqn:E.
  - exists b. split; [reflexivity|]. apply Byte.to_of_N in E. rewrite E. lia.
  - apply Byte.of_N_None_iff in E. lia.
Qed.

Lemma byte_of_value_big (value : Z) :
  255 < value -> Byte.of_N (Z.to_N value) = None.
Proof. intros Hv. apply Byte.of_N_None_iff. lia. Qed.

(** Overwriting one byte inside the file is a list update. *)
Lemma overwrite_at_inside (c : list Byte.byte) (pos : nat) (b : Byte.byte) :
  (pos < length c)%nat -> overwrite_at c pos [b] = <[pos := b]> c.
Proof.
  intros Hp. unfold overwrite_at. rewrite insert_take_drop by lia.
  replace (pos - length c)%nat with 0%nat by lia. simpl.
  replace (pos + 1)%nat with (S pos) by lia. reflexivity.
Qed.

Lemma binary_write_err_handled value max_value offset path w e :
  binary_write_body value max_value offset path w = (Err e, w) ->
  binary_write value max_value offset path w = binary_write_handler path e w.
Proof. intros E. rewrite binary_write_eq, E. reflexivity. Qed.

Lemma Z_ltb_false (a b : Z) : b <= a -> (a <? b) = false.
Proof. intros H. apply Z.ltb_ge. exact H. Qed.

Lemma Z_geb_false (a b : Z) : a < b -> (a >=? b) = false.
Proof. intros H. rewrite Z.geb_leb. apply Z.leb_gt. exact H. Qed.

Lemma Z_geb_true (a b : Z) : b <= a -> (a >=? b) = true.
Proof. intros H. rewrite Z.geb_leb. apply Z.leb_le. exact H. Qed.

Lemma value_range_true (value max_value : Z) :
  0 <= value <= max_value -> (0 <=? value) && (value <=? max_value) = true.
Proof. intros Hv. apply andb_true_iff. split; apply Z.leb_le; lia. Qed.

(** ** Patching (claim C1) *)

(** C1: on an existing regular file the process may read and write,
    whose size exceeds [offset], with [0 <= offset] and
    [0 <= value <= max_value <= 255], [binary_write] writes one byte
    equal to [value] at [offset]; every other byte of the file, its
    size, every other file and every path are unchanged. *)
Theorem binary_write_patches_one_byte (value max_value offset : Z) (path : pystr)
    (w : world) (i : positive) (f : pfile) :
  resolve w path = Some i ->
  files w !! i = Some f ->
  writable f = true ->
  0 <= offset < Z.of_nat (length (contents f)) ->
  0 <= value <= max_value ->
  max_value <= 255 ->
  let '(r, w') := binary_write value max_value offset path w in
  r = Ok tt /\
  (exists f', files w' !! i = Some f' /\
     length (contents f') = length (contents f) /\
     (exists b, contents f' !! Z.to_nat offset = Some b /\ Z.of_N (Byte.to_N b) = value) /\
     (forall k, k <> Z.to_nat offset -> contents f' !! k = contents f !! k)) /\
  (forall j, j <> i -> files w' !! j = files w !! j) /\
  paths w' = paths w.
Proof.
  intros Hr Hf Hw Hoff Hv Hmax.
  destruct (byte_of_value value ltac:(lia)) as (b & Hb & Hbv).
  pose proof (writable_access f Hw) as Ha.
  assert (Ho : open_result path w = Ok i).
  { apply (open_result_resolve _ _ _ f Hr Hf). unfold opens. rewrite Ha. reflexivity. }
  rewrite binary_write_eq, binary_write_body_eq, Ho, Hf, Ha,
    Z_ltb_false, value_range_true, Z_geb_false, Hb by lia.
  replace (0 <=? value) with true by (symmetry; apply Z.leb_le; lia).
  simpl. split; [reflexivity|]. split; [|split].
  - eexists. rewrite lookup_insert_eq. split; [reflexivity|]. simpl.
    rewrite overwrite_at_inside by lia.
    split; [apply length_insert|]. split.
    + exists b. split; [|exact Hbv]. apply list_lookup_insert_eq. lia.
    + intros k Hk. apply list_lookup_insert_ne. congruence.
  - intros j Hj. apply lookup_insert_ne. congruence.
  - reflexivity.
Qed.

Lemma binary_write_patches_one_byte_witness :
  (resolve world_1000 sav_path = Some 1%positive /\
   files world_1000 !! 1%positive = Some sav_1000 /\ writable sav_1000 = true /\
   0 <= 340 < Z.of_nat (length (contents sav_1000)) /\ 0 <= 255 <= 255 /\ 255 <= 255) /\
  (let '(r, w') := binary_write 255 255 340 sav_path world_1000 in
   r = Ok tt /\
   (exists f', files w' !! 1%positive = Some f' /\
      length (contents f') = length (contents sav_1000) /\
      (exists b, contents f' !! Z.to_nat 340 = Some b /\ Z.of_N (Byte.to_N b) = 255) /\
      (forall k, k <> Z.to_nat 340 -> contents f' !! k = contents sav_1000 !! k)) /\
   (forall j, j <> 1%positive -> files w' !! j = files world_1000 !! j) /\
   paths w' = paths world_1000).
Proof.
  assert (Hlen : 0 <= 340 < Z.of_nat (length (contents sav_1000)))
    by (unfold sav_1000; cbn [contents]; rewrite length_replicate; lia).
  split.
  - split; [reflexivity|]. split; [reflexivity|]. split; [reflexivity|].
    split; [exact Hlen|lia].
  - apply (binary_write_patches_one_byte 255 255 340 sav_path world_1000 1%positive sav_1000);
      [reflexivity|reflexivity|reflexivity|exact Hlen|lia|lia].
Defined.

(** ** Reporting (claim C2) *)


(** [binary_write] always returns normally. *)
Lemma binary_write_returns (value max_value offset : Z) (path : pystr) (w : world) :
  fst (binary_write value max_value offset path w) = Ok tt.
Proof.
  rewrite binary_write_eq.
  destruct (binary_write_body value max_value offset path w) as [[[]|e] w'] eqn:E;
    [reflexivity|].
  apply binary_write_body_err in E as [-> [[m ->] | [[] ->]]]; reflexivity.
Qed.


(** ** Failure paths (claims C4 to C7, C9) *)

(** C4: for an existing file that opens, [0 <= value <= max_value] and
    [offset >= file_size], the body raises the end-of-file [ValueError]
    on the unchanged world: no byte is written and the file never grows.
    ([binary_write] then catches and prints it, as it does every
    failure; see C2.) *)
Theorem binary_write_offset_beyond_file (value max_value offset : Z) (path : pystr)
    (w : world) (i : positive) (f : pfile) :
  resolve w path = Some i ->
  files w !! i = Some f ->
  opens f = true ->
  0 <= value <= max_value ->
  Z.of_nat (length (contents f)) <= offset ->
  binary_write_body value max_value offset path w
    = (Err (ValueError (VE_beyond_eof offset (Z.of_nat (length (contents f))))), w) /\
  binary_write value max_value offset path w
    = (Ok tt, mk_world (paths w) (files w)
                (stdout w ++ [L_value_error (VE_beyond_eof offset (Z.of_nat (length (contents f))))])
                (stdin w)).
Proof.
  intros Hr Hf Ho Hv Hsize.
  assert (Hbody : binary_write_body value max_value offset path w
     = (Err (ValueError (VE_beyond_eof offset (Z.of_nat (length (contents f))))), w)).
  { rewrite binary_write_body_eq, (open_result_resolve _ _ _ f Hr Hf Ho), Hf,
      Z_ltb_false, value_range_true, Z_geb_true by lia.
    reflexivity. }
  split; [exact Hbody|].
  rewrite (binary_write_err_handled _ _ _ _ _ _ Hbody). reflexivity.
Qed.

Lemma binary_write_offset_beyond_file_witness :
  (resolve world_1000 sav_path = Some 1%positive /\
   files world_1000 !! 1%positive = Some sav_1000 /\ opens sav_1000 = true /\
   0 <= 10 <= 255 /\ Z.of_nat (length (contents sav_1000)) <= 1000) /\
  (binary_write_body 10 255 1000 sav_path world_1000
     = (Err (ValueError (VE_beyond_eof 1000 (Z.of_nat (length (contents sav_1000))))), world_1000) /\
   binary_write 10 255 1000 sav_path world_1000
     = (Ok tt, mk_world (paths world_1000) (files world_1000)
                 (stdout world_1000 ++
                  [L_value_error (VE_beyond_eof 1000 (Z.of_nat (length (contents sav_1000))))])
                 (stdin world_1000))).
Proof.
  assert (Hlen : Z.of_nat (length (contents sav_1000)) <= 1000)
    by (unfold sav_1000; cbn [contents]; rewrite length_replicate; lia).
  split.
  - split; [reflexivity|]. split; [reflexivity|]. split; [reflexivity|].
    split; [lia|exact Hlen].
  - apply (binary_write_offset_beyond_file 10 255 1000 sav_path world_1000 1%positive sav_1000);
      [reflexivity|reflexivity|reflexivity|lia|exact Hlen].
Defined.

(** C5: for [value < 0] or [value > max_value] (and [offset >= 0], the
    check made first), the body raises the value-range [ValueError] on
    the unchanged world, whatever the path and the files, before the
    file is opened: no byte is written.  ([binary_write] then catches
    and prints it; see C2.) *)
Theorem binary_write_value_out_of_range (value max_value offset : Z) (path : pystr)
    (w : world) :
  0 <= offset ->
  value < 0 \/ max_value < value ->
  binary_write_body value max_value offset path w
    = (Err (ValueError (VE_value_exceeds max_value)), w) /\
  binary_write value max_value offset path w
    = (Ok tt, mk_world (paths w) (files w)
                (stdout w ++ [L_value_error (VE_value_exceeds max_value)]) (stdin w)).
Proof.
  intros Hoff Hv.
  assert (Hr : negb ((0 <=? value) && (value <=? max_value)) = true).
  { destruct Hv as [Hv|Hv].
    - replace (0 <=? value) with false by (symmetry; apply Z.leb_gt; lia). reflexivity.
    - replace (value <=? max_value) with false by (symmetry; apply Z.leb_gt; lia).
      rewrite andb_false_r. reflexivity. }
  assert (Hbody : binary_write_body value max_value offset path w
                  = (Err (ValueError (VE_value_exceeds max_value)), w)).
  { rewrite binary_write_body_eq, Hr, Z_ltb_false by lia. reflexivity. }
  split; [exact Hbody|].
  rewrite (binary_write_err_handled _ _ _ _ _ _ Hbody). reflexivity.
Qed.

Lemma binary_write_value_out_of_range_witness :
  (0 <= 50 /\ (300 < 0 \/ 255 < 300)) /\
  (binary_write_body 300 255 50 sav_path world_1000
     = (Err (ValueError (VE_value_exceeds 255)), world_1000) /\
   binary_write 300 255 50 sav_path world_1000
     = (Ok tt, mk_world (paths world_1000) (files world_1000)
                 (stdout world_1000 ++ [L_value_error (VE_value_exceeds 255)])
                 (stdin world_1000))).
Proof.
  split; [split; lia|].
  apply (binary_write_value_out_of_range 300 255 50 sav_path world_1000); lia.
Defined.

(** C6: a negative offset fails with the non-negative-offset
    [ValueError] for every value, path and world: the body raises it on
    the unchanged world before the value check and before opening the
    file; [binary_write] catches and prints it and writes nothing. *)
Theorem binary_write_negative_offset (value max_value offset : Z) (path : pystr)
    (w : world) :
  offset < 0 ->
  binary_write_body value max_value offset path w = (Err (ValueError VE_negative_offset), w) /\
  binary_write value max_value offset path w
    = (Ok tt, mk_world (paths w) (files w) (stdout w ++ [L_value_error VE_negative_offset])
                       (stdin w)).
Proof.
  intros Hoff.
  assert (Hbody : binary_write_body value max_value offset path w
                  = (Err (ValueError VE_negative_offset), w)).
  { rewrite binary_write_body_eq.
    replace (offset <? 0) with true by (symmetry; apply Z.ltb_lt; lia). reflexivity. }
  split; [exact Hbody|].
  rewrite (binary_write_err_handled _ _ _ _ _ _ Hbody). reflexivity.
Qed.

Lemma binary_write_negative_offset_witness :
  -1 < 0 /\
  binary_write_body 300 255 (-1) (str_of "MISSING.SAV") world_1000
    = (Err (ValueError VE_negative_offset), world_1000) /\
  binary_write 300 255 (-1) (str_of "MISSING.SAV") world_1000
    = (Ok tt, mk_world (paths world_1000) (files world_1000)
                (stdout world_1000 ++ [L_value_error VE_negative_offset])
                (stdin world_1000)).
Proof. split; [lia|]. apply binary_write_negative_offset. lia. Defined.







(** ** The menus (claims C3 and C8) *)

Ltac run_monad :=
  cbv [mbind M_bind mret M_ret print input quit raise clear_screen];
  cbn [stdin stdout paths files].

(** Settle the comparisons of a menu choice with the literals, where
    both sides are known. *)
Ltac decide_choices :=
  repeat first [ rewrite bool_decide_eq_true_2 by reflexivity
               | rewrite bool_decide_eq_false_2 by (vm_compute; discriminate) ].

Lemma binary_write_paths (value max_value offset : Z) (path : pystr) (w : world) :
  paths (snd (binary_write value max_value offset path w)) = paths w.
Proof.
  rewrite binary_write_eq, binary_write_body_eq. destruct_body; cbv beta iota;
    try reflexivity;
    match goal with |- paths (snd (binary_write_handler _ ?e _)) = _ =>
      destruct e as [m|[]| | | | |c]; reflexivity end.
Qed.

Lemma resolve_paths (w w' : world) (p : pystr) : paths w' = paths w -> resolve w' p = resolve w p.
Proof. intros H. unfold resolve. rewrite H. reflexivity. Qed.

Lemma binary_write_resolve (value max_value offset : Z) (path q : pystr) (w : world) :
  resolve (snd (binary_write value max_value offset path w)) q = resolve w q.
Proof. apply resolve_paths, binary_write_paths. Qed.

Lemma handler_files (path : pystr) (e : py_exc) (w : world) :
  files (snd (binary_write_handler path e w)) = files w.
Proof. destruct e as [m|[]| | | | |c]; reflexivity. Qed.

(** Neither menu ever returns normally.  A run of them ends in
    [SystemExit(0)], [EOFError], [UnicodeDecodeError] or
    [RecursionError]; it changes no path, and it only ever sets byte 340
    or 99999 of the file the save path resolves to, to 0xFF. *)
Definition menu_end (e : py_exc) : Prop :=
  e = SystemExit 0 \/ e = EOFError \/ e = UnicodeDecodeError \/ e = RecursionError.

Lemma only_health_bytes_refl (t : option positive) (m : gmap positive pfile) :
  only_health_bytes t m m.
Proof.
  split; [reflexivity|]. intros j _. unfold health_patched.
  destruct (m !! j); [|exact I].
  split; [reflexivity|]. split; [reflexivity|]. intros k. left. reflexivity.
Qed.

Lemma only_health_bytes_trans (t : option positive) (m1 m2 m3 : gmap positive pfile) :
  only_health_bytes t m1 m2 -> only_health_bytes t m2 m3 -> only_health_bytes t m1 m3.
Proof.
  intros [H12 S12] [H23 S23]. split.
  - intros j Hj. rewrite H23, H12 by exact Hj. reflexivity.
  - intros j Hj. specialize (S12 j Hj). specialize (S23 j Hj). unfold health_patched in *.
    destruct (m1 !! j) as [f1|], (m2 !! j) as [f2|], (m3 !! j) as [f3|];
      try contradiction; [|exact I].
    destruct S12 as (W12 & L12 & B12), S23 as (W23 & L23 & B23).
    split; [congruence|]. split; [congruence|].
    intros k. destruct (B23 k) as [E23|[Hk E23]]; [|right; auto].
    rewrite E23. exact (B12 k).
Qed.

Ltac split_bool_tests :=
  repeat match goal with
         | |- context [?a >=? ?b] => rewrite (Z.geb_leb a b)
         | |- context [?a <? ?b] => destruct (Z.ltb_spec a b)
         | |- context [?a <=? ?b] => destruct (Z.leb_spec a b)
         end.

Lemma alter_lookup_some {A} (g : A -> A) (m : gmap positive A) (k : positive) (x : A) :
  m !! k = Some x -> alter g k m = <[k := g x]> m.
Proof.
  intros Hk. rewrite <- (insert_id m k x Hk) at 1. apply alter_insert_eq.
Qed.

(** A file that does not open is never patched. *)
Lemma patch_file_closed (value max_value offset : Z) (f : pfile) :
  writable f = false -> patch_file value max_value offset f = f.
Proof. intros Hw. unfold patch_file. rewrite Hw. reflexivity. Qed.

(** The files after [binary_write] depend on the world before it only
    through [binary_write_files]. *)
Lemma binary_write_files_eq (value max_value offset : Z) (path : pystr) (w : world) :
  files (snd (binary_write value max_value offset path w))
    = binary_write_files value max_value offset path w.
Proof.
  unfold binary_write_files.
  rewrite binary_write_eq, binary_write_body_eq.
  destruct (open_result path w) as [i|e] eqn:Ho.
  - pose proof Ho as Ho'. apply open_result_ok in Ho' as (Hr & f & Hf & Hop).
    rewrite Hr, Hf, (alter_lookup_some _ _ _ _ Hf).
    unfold patch_file, write_world, writable. unfold opens in Hop.
    destruct (access f) eqn:Ha; try discriminate Hop;
    destruct (Byte.of_N (Z.to_N value)) as [b|] eqn:Hb; split_bool_tests; cbv beta iota;
      rewrite ?handler_files; simpl; try (exfalso; lia);
      first [ symmetry; apply insert_id; exact Hf
            | rewrite overwrite_at_inside by lia; reflexivity
            | rewrite (insert_id _ _ _ Hf); destruct e; reflexivity ].
  - destruct (resolve w path) as [i|] eqn:Hr.
    + rewrite alter_id.
      2:{ intros f Hf. apply patch_file_closed.
          destruct (writable f) eqn:Hw; [|reflexivity].
          rewrite (open_result_resolve path w i f Hr Hf) in Ho; [discriminate|].
          unfold opens. rewrite (writable_access f Hw). reflexivity. }
      split_bool_tests; cbv beta iota; apply handler_files.
    + split_bool_tests; cbv beta iota; apply handler_files.
Qed.

Lemma patch_file_cond (value max_value offset : Z) (f : pfile) :
  writable f && (0 <=? offset) && (offset <? Z.of_nat (length (contents f)))
    && (0 <=? value) && (value <=? max_value) = true ->
  writable f = true /\ 0 <= offset < Z.of_nat (length (contents f)) /\ 0 <= value <= max_value.
Proof.
  intros C. repeat rewrite andb_true_iff in C.
  destruct C as [[[[Hw Ho] Hlt] Hv0] Hv1].
  apply Z.leb_le in Ho, Hv0, Hv1. apply Z.ltb_lt in Hlt. auto.
Qed.

Lemma writable_mk (f : pfile) (c : list Byte.byte) : writable (mk_pfile (access f) c) = writable f.
Proof. reflexivity. Qed.

Lemma patch_file_idem (value max_value offset : Z) (f : pfile) :
  patch_file value max_value offset (patch_file value max_value offset f)
    = patch_file value max_value offset f.
Proof.
  unfold patch_file at 2 3.
  destruct (_ && _) eqn:C; [|unfold patch_file; rewrite C; reflexivity].
  destruct (Byte.of_N (Z.to_N value)) as [b|] eqn:Hb;
    [|unfold patch_file; rewrite C, Hb; reflexivity].
  unfold patch_file. rewrite writable_mk. cbn [access contents]. rewrite length_insert, C, Hb.
  rewrite list_insert_insert_eq. reflexivity.
Qed.

Lemma patch_file_comm (v1 m1 o1 v2 m2 o2 : Z) (f : pfile) :
  o1 <> o2 ->
  patch_file v1 m1 o1 (patch_file v2 m2 o2 f) = patch_file v2 m2 o2 (patch_file v1 m1 o1 f).
Proof.
  intros Ho. unfold patch_file at 2 4.
  destruct (writable f && (0 <=? o2) && _ && _ && _) eqn:C2;
  destruct (Byte.of_N (Z.to_N v2)) as [b2|] eqn:Hb2;
  destruct (writable f && (0 <=? o1) && _ && _ && _) eqn:C1;
  destruct (Byte.of_N (Z.to_N v1)) as [b1|] eqn:Hb1;
  unfold patch_file; rewrite ?writable_mk; cbn [access contents];
  rewrite ?length_insert, ?C1, ?C2, ?Hb1, ?Hb2; try reflexivity.
  apply patch_file_cond in C1 as (_ & Ho1 & _). apply patch_file_cond in C2 as (_ & Ho2 & _).
  rewrite list_insert_insert_ne by lia. reflexivity.
Qed.

(** The only write the editing menu performs. *)
Lemma health_write_only_health_bytes (offset : Z) (path : pystr) (w : world) :
  offset = 340 \/ offset = 99999 ->
  paths (snd (binary_write 255 255 offset path w)) = paths w /\
  only_health_bytes (resolve w path) (files w) (files (snd (binary_write 255 255 offset path w))).
Proof.
  intros Ho. split; [apply binary_write_paths|].
  rewrite binary_write_files_eq. unfold binary_write_files.
  destruct (resolve w path) as [i|]; [|apply only_health_bytes_refl].
  split.
  - intros j Hj. apply lookup_alter_ne. congruence.
  - intros j [= <-]. rewrite lookup_alter_eq. unfold health_patched.
    destruct (files w !! i) as [f|]; [|exact I]. simpl.
    unfold patch_file. destruct (_ && _) eqn:C.
    + cbn [Byte.of_N Z.to_N access contents]. apply patch_file_cond in C as (_ & Hoff & _).
      split; [reflexivity|]. split; [apply length_insert|].
      intros k. rewrite list_lookup_insert.
      destruct (decide _) as [[Hk Hlt]|]; [right; split; [lia|reflexivity]|left; reflexivity].
    + split; [reflexivity|]. split; [reflexivity|]. intros k. left. reflexivity.
Qed.

Ltac stop_here :=
  eexists _, _; split; [reflexivity|];
  split; [unfold menu_end; auto|split; [reflexivity|apply only_health_bytes_refl]].

Lemma menus_outcome (fuel : nat) :
  (forall p w, exists e w', main_menu fuel p w = (Err e, w') /\ menu_end e /\
     paths w' = paths w /\ only_health_bytes (resolve w (path_str p)) (files w) (files w')) /\
  (forall c p w, name c <> None -> exists e w', edit_menu fuel c p w = (Err e, w') /\
     menu_end e /\
     paths w' = paths w /\ only_health_bytes (resolve w (path_str p)) (files w) (files w')).
Proof.
  induction fuel as [|n [IHm IHe]].
  - split; intros; stop_here.
  - split.
    + intros p [ps0 fs0 out0 [|[raw|] rest]]; cbn [main_menu]; run_monad; [stop_here| |stop_here].
      destruct (bool_decide (py_lower (py_strip raw) = str_of "0")); [stop_here|].
      destruct (bool_decide (py_lower (py_strip raw) = str_of "1")).
      { match goal with |- context [edit_menu n ?c ?p ?w] =>
          destruct (IHe c p w) as (e & w' & E & He & Hp & Hf); [discriminate|] end.
        rewrite E. exists e, w'. split; [reflexivity|]. split; [exact He|].
        split; [exact Hp|exact Hf]. }
      destruct (bool_decide (py_lower (py_strip raw) = str_of "2")).
      { match goal with |- context [edit_menu n ?c ?p ?w] =>
          destruct (IHe c p w) as (e & w' & E & He & Hp & Hf); [discriminate|] end.
        rewrite E. exists e, w'. split; [reflexivity|]. split; [exact He|].
        split; [exact Hp|exact Hf]. }
      match goal with |- context [main_menu n ?p ?w] =>
        destruct (IHm p w) as (e & w' & E & He & Hp & Hf) end.
      rewrite E. exists e, w'. split; [reflexivity|]. split; [exact He|].
      split; [exact Hp|exact Hf].
    + intros c p [ps0 fs0 out0 [|[raw|] rest]] Hc; cbn [edit_menu]; run_monad;
        [stop_here| |stop_here].
      destruct (bool_decide (py_lower (py_strip raw) = str_of "0")).
      { match goal with |- context [main_menu n ?p ?w] =>
          destruct (IHm p w) as (e & w' & E & He & Hp & Hf) end.
        rewrite E. exists e, w'. split; [reflexivity|]. split; [exact He|].
        split; [exact Hp|exact Hf]. }
      destruct (bool_decide (py_lower (py_strip raw) = str_of "1")).
      { destruct (name c) as [nm|] eqn:Hn; [|congruence].
        destruct nm; cbv [lookup_offset lookup_value OFFSETS ATTRIBUTE_VALUES name attrs
                          mret M_ret];
        match goal with |- context [binary_write ?v ?m ?o ?f ?w] =>
          pose proof (binary_write_returns v m o f w) as B;
          pose proof (health_write_only_health_bytes o f w) as Hw1;
          destruct (binary_write v m o f w) as [r w2] eqn:Ew; cbn [fst snd] in B, Hw1; subst r end;
        (match goal with |- context [edit_menu n ?c ?p ?w] =>
           destruct (IHe c p w) as (e & w' & E & He & Hp & Hf); [discriminate|] end);
        rewrite E; exists e, w'; (split; [reflexivity|]); (split; [exact He|]);
        (destruct Hw1 as [Hp1 Hf1]; [lia|]);
        (split; [rewrite Hp, Hp1; reflexivity|]);
        rewrite (resolve_paths _ _ _ Hp1) in Hf;
        (eapply only_health_bytes_trans; [exact Hf1|exact Hf]). }
      match goal with |- context [edit_menu n ?c ?p ?w] =>
        destruct (IHe c p w) as (e & w' & E & He & Hp & Hf); [exact Hc|] end.
      rewrite E. exists e, w'. split; [reflexivity|]. split; [exact He|].
      split; [exact Hp|exact Hf].
Qed.

(** The pair (Farley, agility) has no entry in [OFFSETS]: indexing it
    raises [KeyError] (no [UnsupportedCombination] exists in the code),
    and an uncaught [KeyError] ends the process with status 1. *)
Lemma unsupported_pair_raises_key_error :
  lookup_offset (mk_game_character (Some Farley) (Some agility)) world_1000
    = (Err KeyError, world_1000) /\
  exit_status (A := unit) (Err KeyError) = 1.
Proof. split; reflexivity. Qed.

(** C3 (amended): indexing [OFFSETS] with the absent pair
    (Farley, agility) raises [KeyError], not a dedicated error; the
    editing flow never performs such a lookup: the only attribute it
    selects is [health], which has an offset for both characters, so no
    run of the menus ends in [KeyError]. *)
Theorem offsets_lookup_missing_pair_unreachable :
  (forall w, lookup_offset (mk_game_character (Some Farley) (Some agility)) w = (Err KeyError, w)) /\
  (forall n w, exists o, lookup_offset (mk_game_character (Some n) (Some health)) w = (Ok o, w)) /\
  (forall fuel p w, exists e w', main_menu fuel p w = (Err e, w') /\ e <> KeyError).
Proof.
  split; [reflexivity|]. split.
  - intros [|] w; eexists; reflexivity.
  - intros fuel p w. destruct (proj1 (menus_outcome fuel) p w) as (e & w' & E & He & _).
    exists e, w'. split; [exact E|].
    destruct He as [-> | [-> | [-> | ->]]]; discriminate.
Qed.

(** C8: when the input line at the character menu, stripped and
    lower-cased, is "0", [main_menu] raises [SystemExit(0)] (nothing in
    the program catches it), so the process exits with status 0. *)
Theorem main_menu_exit_status_zero (n : nat) (p : Path) (w : world) (raw : pystr)
    (rest : list stdin_item) :
  stdin w = In_line raw :: rest ->
  py_lower (py_strip raw) = str_of "0" ->
  fst (main_menu (S n) p w) = Err (SystemExit 0) /\
  exit_status (fst (main_menu (S n) p w)) = 0.
Proof.
  destruct w as [ps0 fs0 out0 inp0]. simpl. intros -> Hraw.
  cbn [main_menu]. run_monad. rewrite Hraw. decide_choices. split; reflexivity.
Qed.

Lemma main_menu_exit_status_zero_witness :
  let w := world_with sav_1000 [In_line ([0xA0] ++ str_of "0" ++ [0x3000])] in
  (stdin w = In_line ([0xA0] ++ str_of "0" ++ [0x3000]) :: [] /\
   py_lower (py_strip ([0xA0] ++ str_of "0" ++ [0x3000])) = str_of "0") /\
  (fst (main_menu 1000 (mk_Path sav_path) w) = Err (SystemExit 0) /\
   exit_status (fst (main_menu 1000 (mk_Path sav_path) w)) = 0).
Proof.
  intros w. split.
  - split; reflexivity.
  - apply (main_menu_exit_status_zero 999 (mk_Path sav_path) w
             ([0xA0] ++ str_of "0" ++ [0x3000]) []); reflexivity.
Defined.

(** ** [clean_file_path] (claim C10) *)

(** [t] occurs as a contiguous block of [s]. *)
Definition substring_of (t s : pystr) : Prop :=
  exists pre suf, s = pre ++ t ++ suf.

Lemma substring_of_refl (s : pystr) : substring_of s s.
Proof. exists [], []. rewrite app_nil_r. reflexivity. Qed.

Lemma substring_of_trans (u t s : pystr) :
  substring_of u t -> substring_of t s -> substring_of u s.
Proof.
  intros (p1 & s1 & ->) (p2 & s2 & ->).
  exists (p2 ++ p1), (s1 ++ s2). rewrite <- !app_assoc. reflexivity.
Qed.

Lemma lstrip_by_suffix (p : Z -> bool) (s : pystr) : exists pre, s = pre ++ lstrip_by p s.
Proof.
  induction s as [|c s (pre & IH)]; simpl; [exists []; reflexivity|].
  destruct (p c); [exists (c :: pre); simpl; congruence|exists []; reflexivity].
Qed.

Lemma rstrip_by_prefix (p : Z -> bool) (s : pystr) : exists suf, s = rstrip_by p s ++ suf.
Proof.
  unfold rstrip_by. destruct (lstrip_by_suffix p (reverse s)) as [pre E].
  exists (reverse pre). rewrite <- reverse_app, <- E, reverse_involutive. reflexivity.
Qed.

Lemma strip_by_substring (p : Z -> bool) (s : pystr) : substring_of (strip_by p s) s.
Proof.
  unfold strip_by.
  destruct (lstrip_by_suffix p s) as [pre E1].
  destruct (rstrip_by_prefix p (lstrip_by p s)) as [suf E2].
  exists pre, suf. rewrite <- E2. exact E1.
Qed.

Lemma drop_substring (n : nat) (s : pystr) : substring_of (drop n s) s.
Proof. exists (take n s), []. rewrite app_nil_r, take_drop. reflexivity. Qed.

(** C10: [clean_file_path] only removes characters at the two ends of
    its input: the string handed to [Path] is a contiguous block of the
    raw input, interior characters untouched. *)
Theorem clean_file_path_substring (raw_path : pystr) :
  exists pre suf, raw_path = pre ++ path_arg (clean_file_path raw_path) ++ suf.
Proof.
  change (substring_of (path_arg (clean_file_path raw_path)) raw_path).
  unfold clean_file_path. cbn [path_arg].
  eapply substring_of_trans; [apply strip_by_substring|].
  eapply substring_of_trans; [apply strip_by_substring|].
  apply (substring_of_trans _ (py_strip raw_path)); [|apply strip_by_substring].
  destruct (py_startswith (str_of "& ") (py_strip raw_path));
    [apply drop_substring|apply substring_of_refl].
Qed.

(** ** Further properties of [binary_write] *)

Lemma handler_not_wrote (path : pystr) (e : py_exc) (w : world) (v o : Z) :
  stdout (snd (binary_write_handler path e w)) <> stdout w ++ [L_wrote v o].
Proof.
  destruct e as [m|[]| | | | |c]; simpl; intros H;
    first [ apply app_inv_head in H; discriminate
          | apply (f_equal length) in H; rewrite length_app in H; simpl in H; lia ].
Qed.

(** X1: [binary_write] never creates or removes a file and never changes
    the size or the access of a file; every file other than the one its
    path resolves to is left untouched, whatever its arguments. *)
Theorem binary_write_keeps_file_shapes (value max_value offset : Z) (path : pystr)
    (w : world) :
  let w' := snd (binary_write value max_value offset path w) in
  paths w' = paths w /\
  (forall j, resolve w path <> Some j -> files w' !! j = files w !! j) /\
  (forall j, (fun f => (access f, length (contents f))) <$> files w' !! j
             = (fun f => (access f, length (contents f))) <$> files w !! j).
Proof.
  cbv zeta. split; [apply binary_write_paths|].
  rewrite binary_write_files_eq. unfold binary_write_files.
  destruct (resolve w path) as [i|]; [|split; intros; reflexivity]. split.
  - intros j Hj. apply lookup_alter_ne. congruence.
  - intros j. rewrite lookup_alter. destruct (decide (i = j)) as [<-|]; [|reflexivity].
    destruct (files w !! i) as [f|]; [|reflexivity]. simpl. f_equal.
    unfold patch_file. destruct (_ && _); [|reflexivity].
    destruct (Byte.of_N _); [|reflexivity]. simpl. rewrite length_insert. reflexivity.
Qed.

(** X2: when the operating system refuses to open an existing file for
    update ([open(path, "rb+")] fails with an errno other than ENOENT,
    e.g. EACCES on a read-only file or EROFS on a read-only mount), with a
    valid offset and value, [binary_write] prints the OS error for that
    errno and changes nothing. *)
Theorem binary_write_open_refused (value max_value offset : Z) (path : pystr) (w : world)
    (i : positive) (f : pfile) (e : errno) :
  resolve w path = Some i -> files w !! i = Some f -> access f = Open_refused e ->
  e <> ENOENT -> 0 <= offset -> 0 <= value <= max_value ->
  binary_write value max_value offset path w
    = (Ok tt, mk_world (paths w) (files w) (stdout w ++ [L_os_error e]) (stdin w)).
Proof.
  intros Hr Hf Ha He Ho Hv.
  assert (Hopen : open_result path w = Err (OSError e)).
  { revert Hr. unfold resolve, open_result.
    destruct (forallb fs_encodable path); [|discriminate].
    destruct (has_nul path); [discriminate|]. cbn [negb andb].
    destruct (paths w path); try discriminate. intros [= ->]. rewrite Hf, Ha. reflexivity. }
  rewrite binary_write_eq, binary_write_body_eq, Hopen, Z_ltb_false, value_range_true by lia.
  simpl. destruct e; try congruence; reflexivity.
Qed.

Lemma binary_write_open_refused_witness :
  let f := mk_pfile (Open_refused EROFS) (replicate 1000 Byte.x00) in
  let w := world_with f [] in
  (resolve w sav_path = Some 1%positive /\ files w !! 1%positive = Some f /\
   access f = Open_refused EROFS /\ EROFS <> ENOENT /\ 0 <= 340 /\ 0 <= 255 <= 255) /\
  binary_write 255 255 340 sav_path w
    = (Ok tt, mk_world (paths w) (files w) (stdout w ++ [L_os_error EROFS]) (stdin w)).
Proof.
  intros f w. split.
  - repeat split; try reflexivity; try discriminate; lia.
  - apply (binary_write_open_refused 255 255 340 sav_path w 1%positive f EROFS);
      [reflexivity|reflexivity|reflexivity|discriminate|lia|lia].
Defined.

(** X16: when the file opens but the operating system refuses the
    written byte when [close] flushes it (e.g. ENOSPC or EIO), with a
    valid offset and value, [binary_write] prints the OS error instead of
    its success line and no file changes. *)
Theorem binary_write_write_refused (value max_value offset : Z) (path : pystr) (w : world)
    (i : positive) (f : pfile) (e : errno) :
  resolve w path = Some i -> files w !! i = Some f -> access f = Write_refused e ->
  e <> ENOENT -> 0 <= offset < Z.of_nat (length (contents f)) ->
  0 <= value <= max_value -> value <= 255 ->
  binary_write value max_value offset path w
    = (Ok tt, mk_world (paths w) (files w) (stdout w ++ [L_os_error e]) (stdin w)).
Proof.
  intros Hr Hf Ha He Ho Hv Hb.
  assert (Hopen : open_result path w = Ok i).
  { apply (open_result_resolve path w i f Hr Hf). unfold opens. rewrite Ha. reflexivity. }
  destruct (byte_of_value value ltac:(lia)) as (b & Hb' & _).
  rewrite binary_write_eq, binary_write_body_eq, Hopen, Hf, Z_ltb_false, value_range_true,
    Z_geb_false, Hb', Ha by lia.
  cbn [negb]. rewrite (proj2 (Z.leb_le 0 value)) by lia.
  simpl. destruct e; try congruence; reflexivity.
Qed.

Lemma binary_write_write_refused_witness :
  let f := mk_pfile (Write_refused ENOSPC) (replicate 1000 Byte.x00) in
  let w := world_with f [] in
  (resolve w sav_path = Some 1%positive /\ files w !! 1%positive = Some f /\
   access f = Write_refused ENOSPC /\ ENOSPC <> ENOENT /\
   0 <= 340 < Z.of_nat (length (contents f)) /\ 0 <= 255 <= 255 /\ 255 <= 255) /\
  binary_write 255 255 340 sav_path w
    = (Ok tt, mk_world (paths w) (files w) (stdout w ++ [L_os_error ENOSPC]) (stdin w)).
Proof.
  intros f w. split.
  - repeat split; try reflexivity; try discriminate; vm_compute; congruence.
  - apply (binary_write_write_refused 255 255 340 sav_path w 1%positive f ENOSPC);
      try reflexivity; try discriminate; vm_compute; split; congruence.
Defined.

(** X3: [binary_write] is idempotent on the files: the same call twice
    leaves the same files as once. *)
Theorem binary_write_idempotent_on_files (value max_value offset : Z) (path : pystr)
    (w : world) :
  files (snd (binary_write value max_value offset path
                (snd (binary_write value max_value offset path w))))
  = files (snd (binary_write value max_value offset path w)).
Proof.
  rewrite binary_write_files_eq. unfold binary_write_files at 1.
  rewrite binary_write_resolve, binary_write_files_eq.
  unfold binary_write_files. destruct (resolve w path) as [i|]; [|reflexivity].
  rewrite alter_alter_eq. apply alter_ext. intros f _. apply patch_file_idem.
Qed.

(** X4: two calls of [binary_write] on different files, or at different
    offsets, leave the same files in either order. *)
Theorem binary_write_commute_on_files (v1 m1 o1 v2 m2 o2 : Z) (p1 p2 : pystr) (w : world) :
  (forall i, resolve w p1 = Some i -> resolve w p2 = Some i -> o1 <> o2) ->
  files (snd (binary_write v2 m2 o2 p2 (snd (binary_write v1 m1 o1 p1 w))))
  = files (snd (binary_write v1 m1 o1 p1 (snd (binary_write v2 m2 o2 p2 w)))).
Proof.
  intros Hne. rewrite !binary_write_files_eq. unfold binary_write_files.
  rewrite !binary_write_resolve, !binary_write_files_eq. unfold binary_write_files.
  destruct (resolve w p1) as [i1|] eqn:H1, (resolve w p2) as [i2|] eqn:H2; try reflexivity.
  destruct (decide (i1 = i2)) as [<-|Hi].
  - rewrite !alter_alter_eq. apply alter_ext. intros f _. symmetry.
    apply patch_file_comm. exact (Hne i1 eq_refl eq_refl).
  - apply alter_alter_ne. congruence.
Qed.

Lemma binary_write_commute_on_files_witness :
  (forall i, resolve world_1000 sav_path = Some i -> resolve world_1000 sav_path = Some i ->
             340 <> 341) /\
  files (snd (binary_write 10 255 341 sav_path (snd (binary_write 255 255 340 sav_path world_1000))))
  = files (snd (binary_write 255 255 340 sav_path (snd (binary_write 10 255 341 sav_path world_1000)))).
Proof.
  split; [intros; lia|].
  apply binary_write_commute_on_files. intros; lia.
Defined.

(** X5: [binary_write] prints its success line exactly when the path
    resolves to an existing file that opens for writing and takes the
    write, [0 <= offset < size], [0 <= value <= max_value] and
    [value <= 255]. *)
Theorem binary_write_success_iff (value max_value offset : Z) (path : pystr) (w : world) :
  stdout (snd (binary_write value max_value offset path w)) = stdout w ++ [L_wrote value offset]
  <-> exists i f, resolve w path = Some i /\ files w !! i = Some f /\ writable f = true /\
        0 <= offset < Z.of_nat (length (contents f)) /\ 0 <= value <= max_value /\ value <= 255.
Proof.
  rewrite binary_write_eq, binary_write_body_eq.
  destruct (open_result path w) as [i|e] eqn:Ho.
  - pose proof Ho as Ho'. apply open_result_ok in Ho' as (Hr & f & Hf & Hop).
    rewrite Hf.
    transitivity (writable f = true /\ 0 <= offset < Z.of_nat (length (contents f)) /\
                  0 <= value <= max_value /\ value <= 255).
    2:{ split.
        - intros Hw. exists i, f. auto.
        - intros (i' & f' & Hr' & Hf' & Hw). rewrite Hr in Hr'. injection Hr' as <-.
          rewrite Hf in Hf'. injection Hf' as <-. exact Hw. }
    unfold writable. unfold opens in Hop.
    destruct (access f) eqn:Ha; try discriminate Hop.
    + destruct (Byte.of_N (Z.to_N value)) as [b|] eqn:Hb.
      * assert (value <= 255).
        { destruct (Z_le_gt_dec value 255) as [?|Hgt]; [assumption|].
          rewrite byte_of_value_big in Hb by lia. discriminate. }
        split_bool_tests; cbv beta iota;
          (split; [intros H'; try (exfalso; exact (handler_not_wrote _ _ _ _ _ H'));
                   repeat split; auto; lia
                  |intros (_ & ? & ? & ?); try reflexivity; exfalso; lia]).
      * split_bool_tests; cbv beta iota;
          (split; [intros H'; exfalso; exact (handler_not_wrote _ _ _ _ _ H')
                  |intros (_ & ? & ? & ?)]); try (exfalso; lia).
        destruct (byte_of_value value ltac:(lia)) as (b & Hb' & _). congruence.
    + destruct (Byte.of_N (Z.to_N value)); split_bool_tests; cbv beta iota;
        (split; [intros H'; exfalso; exact (handler_not_wrote _ _ _ _ _ H')
                |intros (Hw & _); discriminate Hw]).
  - split.
    + split_bool_tests; cbv beta iota;
        intros H'; exfalso; exact (handler_not_wrote _ _ _ _ _ H').
    + intros (i & f & Hr & Hf & Hw & _).
      rewrite (open_result_resolve path w i f Hr Hf) in Ho; [discriminate|].
      unfold opens. rewrite (writable_access f Hw). reflexivity.
Qed.

(** ** Further properties of the menus and of [main] *)

(** X6: a run of the whole program never returns normally: it ends in
    [quit(0)] with exit status 0, or with exit status 1 in [EOFError]
    when input runs out, in [UnicodeDecodeError] when a line of input is
    not valid in the input encoding, or in [RecursionError] when the
    recursive menus exhaust the stack; [KeyError] and the errors of
    [binary_write] never reach the top. *)
Theorem main_ends_in_exit_eof_or_depth (fuel : nat) (w : world) :
  exists e w', main fuel w = (Err e, w') /\
    (e = SystemExit 0 \/ e = EOFError \/ e = UnicodeDecodeError \/ e = RecursionError) /\
    ((e = SystemExit 0 /\ exit_status (A := unit) (Err e) = 0) \/
     (e <> SystemExit 0 /\ exit_status (A := unit) (Err e) = 1)).
Proof.
  assert (Hst : forall e, menu_end e ->
            (e = SystemExit 0 /\ exit_status (A := unit) (Err e) = 0) \/
            (e <> SystemExit 0 /\ exit_status (A := unit) (Err e) = 1)).
  { intros e [ -> | [ -> | [ -> | -> ] ] ];
      [left; split; reflexivity|right; split; [discriminate|reflexivity]..]. }
  destruct fuel as [|n].
  - eexists _, _. split; [reflexivity|]. split; [unfold menu_end; auto|apply Hst; unfold menu_end; auto].
  - destruct w as [ps0 fs0 out0 [|[raw|] rest]]; unfold main; run_monad;
      [eexists _, _; split; [reflexivity|];
       split; [auto|apply Hst; unfold menu_end; auto]| |
       eexists _, _; split; [reflexivity|];
       split; [auto|apply Hst; unfold menu_end; auto]].
    match goal with |- context [main_menu n ?p ?w] =>
      destruct (proj1 (menus_outcome n) p w) as (e & w' & E & He & _) end.
    rewrite E. eexists _, _. split; [reflexivity|]. split; [exact He|apply Hst; exact He].
Qed.

(** X7: a run of the whole program changes no path, and changes only
    the file that [str(Path(clean_file_path(line)))] resolves to, for the
    first line of input; there it sets at most bytes 340 and 99999, each
    to 0xFF, and no size or access changes.  With no first line, no file
    changes. *)
Theorem main_only_sets_health_bytes (fuel : nat) (w : world) :
  paths (snd (main fuel w)) = paths w /\
  match stdin w with
  | In_line raw :: _ =>
      only_health_bytes (resolve w (path_str (clean_file_path raw)))
        (files w) (files (snd (main fuel w)))
  | _ => files (snd (main fuel w)) = files w
  end.
Proof.
  destruct w as [ps0 fs0 out0 [|[raw|] rest]]; destruct fuel as [|n]; unfold main;
    run_monad; try (split; reflexivity).
  - split; [reflexivity|apply only_health_bytes_refl].
  - match goal with |- context [main_menu n ?p ?w] =>
      destruct (proj1 (menus_outcome n) p w) as (e & w' & E & He & Hp & Hf) end.
    rewrite E. split; [exact Hp|exact Hf].
Qed.

(** X8: a choice other than 0, 1 and 2 at the character menu (compared
    after [strip()] and [lower()]) prints the menu and
    "Selection not found" and shows the same menu again, one recursion
    level deeper. *)
Theorem main_menu_invalid_choice (n : nat) (p : Path) (w : world) (raw : pystr)
    (rest : list stdin_item) :
  stdin w = In_line raw :: rest ->
  py_lower (py_strip raw) <> str_of "0" -> py_lower (py_strip raw) <> str_of "1" ->
  py_lower (py_strip raw) <> str_of "2" ->
  main_menu (S n) p w
    = main_menu n p (after_prompt w (main_menu_lines ++ [L_text "Selection not found"]) rest).
Proof.
  destruct w as [ps0 fs0 out0 inp0]. simpl. intros -> H0 H1 H2.
  cbn [main_menu]. run_monad.
  rewrite (bool_decide_eq_false_2 _ H0), (bool_decide_eq_false_2 _ H1),
    (bool_decide_eq_false_2 _ H2).
  unfold after_prompt, main_menu_lines. simpl. rewrite <- !app_assoc. simpl.
  match goal with |- context [main_menu n ?p ?w] =>
    destruct (proj1 (menus_outcome n) p w) as (e & w' & E & _) end.
  rewrite E. reflexivity.
Qed.

Lemma main_menu_invalid_choice_witness :
  let w := world_with sav_1000 [In_line (str_of "3 "); In_line (str_of "0")] in
  (stdin w = In_line (str_of "3 ") :: [In_line (str_of "0")] /\
   py_lower (py_strip (str_of "3 ")) <> str_of "0" /\
   py_lower (py_strip (str_of "3 ")) <> str_of "1" /\
   py_lower (py_strip (str_of "3 ")) <> str_of "2") /\
  main_menu 5 (mk_Path sav_path) w
    = main_menu 4 (mk_Path sav_path)
        (after_prompt w (main_menu_lines ++ [L_text "Selection not found"])
           [In_line (str_of "0")]).
Proof.
  intros w. split.
  - split; [reflexivity|]. vm_compute. repeat split; discriminate.
  - apply (main_menu_invalid_choice 4 (mk_Path sav_path) w (str_of "3 ")
             [In_line (str_of "0")]); [reflexivity|vm_compute; discriminate..].
Defined.

(** X9: choice 1 (after [strip()] and [lower()]) at the character menu
    selects Drake and choice 2 Farley; the editing menu then starts with
    that character and no attribute. *)
Theorem main_menu_select_character (n : nat) (p : Path) (w : world) (raw : pystr)
    (rest : list stdin_item) (nm : character_name) :
  stdin w = In_line raw :: rest ->
  py_lower (py_strip raw) = str_of (match nm with Drake => "1" | Farley => "2" end) ->
  main_menu (S n) p w
    = edit_menu n (mk_game_character (Some nm) None) p (after_prompt w main_menu_lines rest).
Proof.
  destruct w as [ps0 fs0 out0 inp0]. simpl. intros -> Hraw.
  cbn [main_menu]. run_monad. rewrite Hraw.
  unfold after_prompt, main_menu_lines.
  destruct nm; decide_choices; simpl; rewrite <- !app_assoc; reflexivity.
Qed.

Lemma main_menu_select_character_witness :
  let w := world_with sav_1000 [In_line ([0x3000] ++ str_of "2" ++ [0x85])] in
  (stdin w = In_line ([0x3000] ++ str_of "2" ++ [0x85]) :: [] /\
   py_lower (py_strip ([0x3000] ++ str_of "2" ++ [0x85])) = str_of "2") /\
  main_menu 5 (mk_Path sav_path) w
    = edit_menu 4 (mk_game_character (Some Farley) None) (mk_Path sav_path)
        (after_prompt w main_menu_lines []).
Proof.
  intros w. split.
  - split; reflexivity.
  - apply (main_menu_select_character 4 (mk_Path sav_path) w
             ([0x3000] ++ str_of "2" ++ [0x85]) [] Farley); reflexivity.
Defined.

(** X10: choice 1 at the editing menu for a selected character looks up
    the health offset of that character (340 for Drake, 99999 for
    Farley), calls [binary_write(255, 255, offset, str(file_path))] and
    shows the editing menu again with health selected. *)
Theorem edit_menu_health (n : nat) (c : game_character) (p : Path) (w : world)
    (raw : pystr) (rest : list stdin_item) (nm : character_name) :
  name c = Some nm ->
  stdin w = In_line raw :: rest ->
  py_lower (py_strip raw) = str_of "1" ->
  edit_menu (S n) c p w
    = edit_menu n (mk_game_character (Some nm) (Some health)) p
        (snd (binary_write 255 255 (match nm with Drake => 340 | Farley => 99999 end)
                (path_str p) (after_prompt w edit_menu_lines rest))).
Proof.
  destruct w as [ps0 fs0 out0 inp0]. simpl. intros Hn -> Hraw.
  cbn [edit_menu]. run_monad. rewrite Hraw. decide_choices. rewrite Hn.
  unfold after_prompt, edit_menu_lines. simpl. rewrite <- !app_assoc. simpl.
  destruct nm; cbv [lookup_offset lookup_value OFFSETS ATTRIBUTE_VALUES name attrs mret M_ret];
  match goal with |- context [binary_write ?v ?m ?o ?f ?w] =>
    pose proof (binary_write_returns v m o f w) as B;
    destruct (binary_write v m o f w) as [r w1] eqn:Ew; cbn [fst] in B; subst r end;
  reflexivity.
Qed.

Lemma edit_menu_health_witness :
  let c := mk_game_character (Some Drake) None in
  let w := world_with sav_1000 [In_line (str_of "1")] in
  (name c = Some Drake /\ stdin w = In_line (str_of "1") :: [] /\
   py_lower (py_strip (str_of "1")) = str_of "1") /\
  edit_menu 5 c (mk_Path (str_of "./STONEKEEP.SAV")) w
    = edit_menu 4 (mk_game_character (Some Drake) (Some health))
        (mk_Path (str_of "./STONEKEEP.SAV"))
        (snd (binary_write 255 255 340 (path_str (mk_Path (str_of "./STONEKEEP.SAV")))
                (after_prompt w edit_menu_lines []))).
Proof.
  intros c w. split.
  - split; [reflexivity|]. split; reflexivity.
  - apply (edit_menu_health 4 c (mk_Path (str_of "./STONEKEEP.SAV")) w
             (str_of "1") [] Drake); reflexivity.
Defined.

(** X11: choice 0 at the editing menu clears the screen and goes back
    to the character menu, which starts over with a fresh character. *)
Theorem edit_menu_back (n : nat) (c : game_character) (p : Path) (w : world)
    (raw : pystr) (rest : list stdin_item) :
  stdin w = In_line raw :: rest ->
  py_lower (py_strip raw) = str_of "0" ->
  edit_menu (S n) c p w = main_menu n p (after_prompt w (edit_menu_lines ++ [L_clear]) rest).
Proof.
  destruct w as [ps0 fs0 out0 inp0]. simpl. intros -> Hraw.
  cbn [edit_menu]. run_monad. rewrite Hraw. decide_choices.
  unfold after_prompt, edit_menu_lines. simpl. rewrite <- !app_assoc. simpl.
  match goal with |- context [main_menu n ?p ?w] =>
    destruct (proj1 (menus_outcome n) p w) as (e & w' & E & _) end.
  rewrite E. reflexivity.
Qed.

Lemma edit_menu_back_witness :
  let w := world_with sav_1000 [In_line (str_of "0"); In_line (str_of "0")] in
  (stdin w = In_line (str_of "0") :: [In_line (str_of "0")] /\
   py_lower (py_strip (str_of "0")) = str_of "0") /\
  edit_menu 5 (mk_game_character (Some Drake) (Some health)) (mk_Path sav_path) w
    = main_menu 4 (mk_Path sav_path)
        (after_prompt w (edit_menu_lines ++ [L_clear]) [In_line (str_of "0")]).
Proof.
  intros w. split.
  - split; reflexivity.
  - apply (edit_menu_back 4 (mk_game_character (Some Drake) (Some health))
             (mk_Path sav_path) w (str_of "0") [In_line (str_of "0")]); reflexivity.
Defined.

(** X12: any choice other than 0 and 1 at the editing menu (after
    [strip()] and [lower()]) shows it again, one recursion level deeper,
    with nothing written and nothing else printed. *)
Theorem edit_menu_invalid_choice (n : nat) (c : game_character) (p : Path) (w : world)
    (raw : pystr) (rest : list stdin_item) :
  name c <> None ->
  stdin w = In_line raw :: rest ->
  py_lower (py_strip raw) <> str_of "0" -> py_lower (py_strip raw) <> str_of "1" ->
  edit_menu (S n) c p w = edit_menu n c p (after_prompt w edit_menu_lines rest).
Proof.
  destruct w as [ps0 fs0 out0 inp0]. simpl. intros Hc -> H0 H1.
  cbn [edit_menu]. run_monad.
  rewrite (bool_decide_eq_false_2 _ H0), (bool_decide_eq_false_2 _ H1).
  unfold after_prompt, edit_menu_lines. simpl. rewrite <- !app_assoc. simpl.
  match goal with |- context [edit_menu n ?c ?p ?w] =>
    destruct (proj2 (menus_outcome n) c p w Hc) as (e & w' & E & _) end.
  rewrite E. reflexivity.
Qed.

Lemma edit_menu_invalid_choice_witness :
  let w := world_with sav_1000 [In_line (str_of "Health")] in
  (name (mk_game_character (Some Farley) None) <> None /\
   stdin w = In_line (str_of "Health") :: [] /\
   py_lower (py_strip (str_of "Health")) <> str_of "0" /\
   py_lower (py_strip (str_of "Health")) <> str_of "1") /\
  edit_menu 5 (mk_game_character (Some Farley) None) (mk_Path sav_path) w
    = edit_menu 4 (mk_game_character (Some Farley) None) (mk_Path sav_path)
        (after_prompt w edit_menu_lines []).
Proof.
  intros w. split.
  - split; [discriminate|]. split; [reflexivity|]. vm_compute. split; discriminate.
  - apply (edit_menu_invalid_choice 4 (mk_game_character (Some Farley) None)
             (mk_Path sav_path) w (str_of "Health") []);
      [discriminate|reflexivity|vm_compute; discriminate..].
Defined.

(** X13: when input runs out at either menu, [input] raises [EOFError]
    after the menu is printed; nothing catches it, so the process exits
    with status 1 and no file is changed. *)
Theorem menus_end_of_input (n : nat) (c : game_character) (p : Path) (w : world) :
  stdin w = [] ->
  main_menu (S n) p w = (Err EOFError, after_prompt w main_menu_lines []) /\
  edit_menu (S n) c p w = (Err EOFError, after_prompt w edit_menu_lines []) /\
  exit_status (A := unit) (Err EOFError) = 1.
Proof.
  destruct w as [ps0 fs0 out0 inp0]. simpl. intros ->.
  unfold after_prompt, main_menu_lines, edit_menu_lines. simpl.
  cbn [main_menu edit_menu]. run_monad. rewrite <- !app_assoc. simpl.
  split; [reflexivity|]. split; reflexivity.
Qed.

Lemma menus_end_of_input_witness :
  let w := world_with sav_1000 [] in
  stdin w = [] /\
  (main_menu 1 (mk_Path sav_path) w = (Err EOFError, after_prompt w main_menu_lines []) /\
   edit_menu 1 (mk_game_character None None) (mk_Path sav_path) w
     = (Err EOFError, after_prompt w edit_menu_lines []) /\
   exit_status (A := unit) (Err EOFError) = 1).
Proof.
  intros w. split; [reflexivity|].
  apply (menus_end_of_input 0 (mk_game_character None None)); reflexivity.
Defined.

(** X17: a line of input that cannot be decoded makes [input] raise
    [UnicodeDecodeError] at either menu, after the menu is printed;
    nothing catches it, so the process exits with status 1 and no file
    is changed. *)
Theorem menus_undecodable_input (n : nat) (c : game_character) (p : Path) (w : world)
    (rest : list stdin_item) :
  stdin w = In_undecodable :: rest ->
  main_menu (S n) p w = (Err UnicodeDecodeError, after_prompt w main_menu_lines rest) /\
  edit_menu (S n) c p w = (Err UnicodeDecodeError, after_prompt w edit_menu_lines rest) /\
  exit_status (A := unit) (Err UnicodeDecodeError) = 1.
Proof.
  destruct w as [ps0 fs0 out0 inp0]. simpl. intros ->.
  unfold after_prompt, main_menu_lines, edit_menu_lines. simpl.
  cbn [main_menu edit_menu]. run_monad. rewrite <- !app_assoc. simpl.
  split; [reflexivity|]. split; reflexivity.
Qed.

Lemma menus_undecodable_input_witness :
  let w := world_with sav_1000 [In_undecodable; In_line (str_of "0")] in
  stdin w = In_undecodable :: [In_line (str_of "0")] /\
  (main_menu 1 (mk_Path sav_path) w
     = (Err UnicodeDecodeError, after_prompt w main_menu_lines [In_line (str_of "0")]) /\
   edit_menu 1 (mk_game_character None None) (mk_Path sav_path) w
     = (Err UnicodeDecodeError, after_prompt w edit_menu_lines [In_line (str_of "0")]) /\
   exit_status (A := unit) (Err UnicodeDecodeError) = 1).
Proof.
  intros w. split; [reflexivity|].
  apply (menus_undecodable_input 0 (mk_game_character None None)); reflexivity.
Defined.

(** ** Further properties of [clean_file_path] *)

Lemma lstrip_by_first (p : Z -> bool) (s : pystr) (c : Z) :
  first_char (lstrip_by p s) = Some c -> p c = false.
Proof.
  induction s as [|c0 s IH]; simpl; [discriminate|].
  destruct (p c0) eqn:Hp; [exact IH|]. simpl. intros [= <-]. exact Hp.
Qed.

Lemma rstrip_by_last (p : Z -> bool) (s : pystr) (c : Z) :
  last_char (rstrip_by p s) = Some c -> p c = false.
Proof.
  unfold last_char, rstrip_by. rewrite reverse_involutive. apply lstrip_by_first.
Qed.

Lemma rstrip_by_first (p : Z -> bool) (s : pystr) (c : Z) :
  first_char (rstrip_by p s) = Some c -> first_char s = Some c.
Proof.
  destruct (rstrip_by_prefix p s) as [suf E]. rewrite E at 2.
  destruct (rstrip_by p s); simpl; congruence.
Qed.

Lemma Z_test_true (ch : Z) : (ch =? ch) = true.
Proof. apply Z.eqb_refl. Qed.

Lemma Z_test_false (c ch : Z) : c <> ch -> (c =? ch) = false.
Proof. apply Z.eqb_neq. Qed.

(** X14: the string [clean_file_path] hands to [Path] never begins or
    ends with a single quote. *)
Theorem clean_file_path_no_outer_single_quote (raw_path : pystr) :
  first_char (path_arg (clean_file_path raw_path)) <> Some quote_single /\
  last_char (path_arg (clean_file_path raw_path)) <> Some quote_single.
Proof.
  unfold clean_file_path. cbn [path_arg]. unfold py_strip_char at 1, strip_by at 1.
  split; intros H.
  - apply rstrip_by_first, lstrip_by_first in H. rewrite Z_test_true in H. discriminate.
  - apply rstrip_by_last in H. rewrite Z_test_true in H. discriminate.
Qed.

Lemma lstrip_by_id (p : Z -> bool) (s : pystr) :
  (forall c, first_char s = Some c -> p c = false) -> lstrip_by p s = s.
Proof. destruct s as [|c s]; intros Hf; [reflexivity|]. simpl. rewrite (Hf c eq_refl). reflexivity. Qed.

Lemma rstrip_by_id (p : Z -> bool) (s : pystr) :
  (forall c, last_char s = Some c -> p c = false) -> rstrip_by p s = s.
Proof.
  intros Hl. unfold rstrip_by. rewrite lstrip_by_id by exact Hl. apply reverse_involutive.
Qed.

(** Characters that no strip in [clean_file_path] removes. *)
Definition path_end_ok (c : Z) : Prop :=
  py_isspace c = false /\ c <> quote_double /\ c <> quote_single.

Lemma strip_by_id (p : Z -> bool) (s : pystr) :
  (forall c, first_char s = Some c -> p c = false) ->
  (forall c, last_char s = Some c -> p c = false) ->
  strip_by p s = s.
Proof.
  intros Hf Hl. unfold strip_by. rewrite lstrip_by_id by exact Hf. apply rstrip_by_id. exact Hl.
Qed.

Lemma strip_by_wrap (p : Z -> bool) (q : Z) (s : pystr) :
  p q = true ->
  (forall c, first_char s = Some c -> p c = false) ->
  (forall c, last_char s = Some c -> p c = false) ->
  strip_by p (wrap q s) = s.
Proof.
  intros Hq Hf Hl. unfold strip_by, wrap. simpl. rewrite Hq.
  destruct s as [|c s'].
  - simpl. rewrite Hq. reflexivity.
  - simpl. rewrite (Hf c eq_refl). unfold rstrip_by.
    rewrite app_comm_cons, reverse_snoc. simpl. rewrite Hq.
    apply rstrip_by_id. exact Hl.
Qed.

Lemma last_char_wrap (q : Z) (s : pystr) : last_char (wrap q s) = Some q.
Proof. unfold last_char, wrap. rewrite app_comm_cons, reverse_snoc. reflexivity. Qed.

Lemma amp_prefix_wrap (q : Z) (s : pystr) :
  q <> 38 -> py_startswith (str_of "& ") (wrap q s) = false.
Proof.
  intros Hq. unfold py_startswith, wrap. apply bool_decide_eq_false_2.
  simpl. intros [= Hq' _]. apply Hq. rewrite Hq'. reflexivity.
Qed.

Lemma amp_prefix_cons (t : pystr) : py_startswith (str_of "& ") (str_of "& " ++ t) = true.
Proof. unfold py_startswith. apply bool_decide_eq_true_2. apply take_app_length. Qed.

(** Removing the quotes from a path wrapped in [q] (a quote character). *)
Lemma unquote_wrapped (q : Z) (s : pystr) :
  q = quote_double \/ q = quote_single ->
  (forall c, first_char s = Some c -> path_end_ok c) ->
  (forall c, last_char s = Some c -> path_end_ok c) ->
  py_strip_char quote_single (py_strip_char quote_double (wrap q s)) = s.
Proof.
  intros Hq Hf Hl.
  destruct Hq as [->| ->].
  - unfold py_strip_char at 2. rewrite strip_by_wrap.
    + apply strip_by_id; intros c Hc; apply Z_test_false;
        [apply (Hf c Hc)|apply (Hl c Hc)].
    + apply Z_test_true.
    + intros c Hc. apply Z_test_false, (Hf c Hc).
    + intros c Hc. apply Z_test_false, (Hl c Hc).
  - assert (E2 : py_strip_char quote_double (wrap quote_single s) = wrap quote_single s).
    { apply strip_by_id; [intros c [= <-]; reflexivity|].
      rewrite last_char_wrap. intros c [= <-]. reflexivity. }
    rewrite E2. unfold py_strip_char. apply strip_by_wrap.
    + apply Z_test_true.
    + intros c Hc. apply Z_test_false, (Hf c Hc).
    + intros c Hc. apply Z_test_false, (Hl c Hc).
Qed.

Lemma clean_wrapped (q : Z) (s : pystr) :
  q = quote_double \/ q = quote_single ->
  (forall c, first_char s = Some c -> path_end_ok c) ->
  (forall c, last_char s = Some c -> path_end_ok c) ->
  path_arg (clean_file_path (wrap q s)) = s.
Proof.
  intros Hq Hf Hl.
  assert (Hsp : py_isspace q = false) by (destruct Hq as [->| ->]; reflexivity).
  unfold clean_file_path. cbn [path_arg].
  assert (E1 : py_strip (wrap q s) = wrap q s).
  { apply strip_by_id; [intros c [= <-]; exact Hsp|].
    rewrite last_char_wrap. intros c [= <-]. exact Hsp. }
  rewrite E1, amp_prefix_wrap by (destruct Hq as [->| ->]; discriminate).
  apply unquote_wrapped; assumption.
Qed.

(** X15: [clean_file_path] recovers a path [s] from the forms a terminal
    gives for a dropped file: [s] itself, [s] in double or in single
    quotes, and either quoted form behind PowerShell's "& " prefix;
    provided [s] neither begins nor ends with a character [str.strip()]
    removes (Unicode whitespace) or a quote, and does not begin with
    "& " itself. *)
Theorem clean_file_path_roundtrip (s : pystr) :
  (forall c, first_char s = Some c -> path_end_ok c) ->
  (forall c, last_char s = Some c -> path_end_ok c) ->
  py_startswith (str_of "& ") s = false ->
  path_arg (clean_file_path s) = s /\
  path_arg (clean_file_path (wrap quote_double s)) = s /\
  path_arg (clean_file_path (wrap quote_single s)) = s /\
  path_arg (clean_file_path (str_of "& " ++ wrap quote_double s)) = s /\
  path_arg (clean_file_path (str_of "& " ++ wrap quote_single s)) = s.
Proof.
  intros Hf Hl Hp.
  assert (Hamp : forall q, q = quote_double \/ q = quote_single ->
            path_arg (clean_file_path (str_of "& " ++ wrap q s)) = s).
  { intros q Hq.
    assert (Hsp : py_isspace q = false) by (destruct Hq as [->| ->]; reflexivity).
    unfold clean_file_path at 1. cbn [path_arg].
    assert (E1 : py_strip (str_of "& " ++ wrap q s) = str_of "& " ++ wrap q s).
    { apply strip_by_id; [intros c [= <-]; reflexivity|].
      unfold last_char, wrap. rewrite app_comm_cons, app_assoc, reverse_snoc.
      intros c [= <-]. exact Hsp. }
    rewrite E1, amp_prefix_cons.
    change (drop 2 (str_of "& " ++ wrap q s)) with (wrap q s).
    apply unquote_wrapped; assumption. }
  split; [|split; [|split; [|split]]].
  - unfold clean_file_path. cbn [path_arg].
    assert (E1 : py_strip s = s).
    { apply strip_by_id; intros c Hc; [apply (Hf c Hc)|apply (Hl c Hc)]. }
    rewrite E1, Hp.
    unfold py_strip_char.
    rewrite (strip_by_id _ s), (strip_by_id _ s); try reflexivity;
      intros c Hc; apply Z_test_false; first [apply (Hf c Hc) | apply (Hl c Hc)].
  - apply clean_wrapped; auto.
  - apply clean_wrapped; auto.
  - apply Hamp. auto.
  - apply Hamp. auto.
Qed.

Lemma clean_file_path_roundtrip_witness :
  let s := str_of "/home/user/SAVES/STONE 1.SAV" in
  ((forall c, first_char s = Some c -> path_end_ok c) /\
   (forall c, last_char s = Some c -> path_end_ok c) /\
   py_startswith (str_of "& ") s = false) /\
  (path_arg (clean_file_path s) = s /\
   path_arg (clean_file_path (wrap quote_double s)) = s /\
   path_arg (clean_file_path (wrap quote_single s)) = s /\
   path_arg (clean_file_path (str_of "& " ++ wrap quote_double s)) = s /\
   path_arg (clean_file_path (str_of "& " ++ wrap quote_single s)) = s).
Proof.
  intros s.
  assert (Hf : forall c, first_char s = Some c -> path_end_ok c).
  { intros c Hc. vm_compute in Hc. injection Hc as <-.
    split; [reflexivity|]. split; vm_compute; discriminate. }
  assert (Hl : forall c, last_char s = Some c -> path_end_ok c).
  { intros c Hc. vm_compute in Hc. injection Hc as <-.
    split; [reflexivity|]. split; vm_compute; discriminate. }
  assert (Hp : py_startswith (str_of "& ") s = false) by reflexivity.
  split; [split; [exact Hf|split; [exact Hl|exact Hp]]|].
  apply clean_file_path_roundtrip; [exact Hf|exact Hl|exact Hp].
Defined.

(** ** The comparison of menu choices *)

Lemma run_delta_in (rs : list (Z * Z * Z * Z)) (c : Z) :
  run_delta rs c = 0 \/
  exists lo hi step d, In (lo, hi, step, d) rs /\ lo <= c <= hi /\ run_delta rs c = d.
Proof.
  induction rs as [|[[[lo hi] step] d] rs IH]; simpl; [left; reflexivity|].
  destruct ((lo <=? c) && (c <=? hi) && (Z.modulo (c - lo) step =? 0)) eqn:C.
  - right. exists lo, hi, step, d.
    apply andb_true_iff in C as [C _]. apply andb_true_iff in C as [C1 C2].
    apply Z.leb_le in C1, C2. split; [left; reflexivity|]. split; [lia|reflexivity].
  - destruct IH as [H|(lo' & hi' & step' & d' & Hin & Hc & Hd)]; [left; exact H|].
    right. exists lo', hi', step', d'. split; [right; exact Hin|]. auto.
Qed.

(** No run of the one-to-one lower-case mapping ends on a digit 0, 1 or
    2 unless it maps its code points to themselves. *)
Definition no_run_to_digit (r : Z * Z * Z * Z) : bool :=
  let '(lo, hi, step, d) := r in (d =? 0) || (hi + d <? 48) || (50 <? lo + d).

Lemma lower_runs_no_digit : forallb no_run_to_digit lower_runs = true.
Proof. vm_compute. reflexivity. Qed.

Lemma delta_zero (c : Z) :
  48 <= c + run_delta lower_runs c <= 50 -> run_delta lower_runs c = 0.
Proof.
  intros Hc.
  destruct (run_delta_in lower_runs c) as [H|(lo & hi & st & d & Hin & Hlo & Hd)]; [exact H|].
  pose proof (proj1 (forallb_forall _ _) lower_runs_no_digit _ Hin) as Hr.
  unfold no_run_to_digit in Hr. rewrite Hd in *.
  apply orb_true_iff in Hr as [Hr|Hr]; [apply orb_true_iff in Hr as [Hr|Hr]|].
  - apply Z.eqb_eq in Hr. exact Hr.
  - apply Z.ltb_lt in Hr. lia.
  - apply Z.ltb_lt in Hr. lia.
Qed.

Lemma lower_from_nil (b s : pystr) : lower_from b s = [] -> s = [].
Proof.
  destruct s as [|c s]; [reflexivity|]. simpl.
  destruct (c =? 0x3A3); [discriminate|].
  unfold lower_full. destruct (c =? 0x130); discriminate.
Qed.

(** Only the digit itself lower-cases to the digit 0, 1 or 2. *)
Lemma lower_single_digit (t : pystr) (x : Z) : 48 <= x <= 50 -> py_lower t = [x] -> t = [x].
Proof.
  intros Hx. unfold py_lower. destruct t as [|c t']; cbn [lower_from]; [discriminate|].
  destruct (lower_from [c] t') as [|y l] eqn:E.
  - apply lower_from_nil in E. subst t'. rewrite app_nil_r.
    destruct (c =? 0x3A3) eqn:Hs.
    + intros H. apply (f_equal (hd 0)) in H as Hy. cbn [hd] in Hy.
      exfalso. revert Hy.
      repeat match goal with |- context [if ?b then _ else _] => destruct b end; lia.
    + unfold lower_full. destruct (c =? 0x130) eqn:Hi; [intros H; inversion H|].
      intros H. apply (f_equal (hd 0)) in H as Hc. cbn [hd] in Hc. pose proof (delta_zero c ltac:(lia)) as Hz.
      f_equal. lia.
  - destruct (c =? 0x3A3); [|unfold lower_full; destruct (c =? 0x130)];
      cbn [app]; intros H; inversion H.
Qed.

(** X18: a menu choice is taken exactly when the input line, stripped of
    Unicode whitespace by [strip()], is the digit itself: no other
    string lower-cases by [lower()] to "0", "1" or "2". *)
Theorem menu_choice_exact (raw : pystr) (d : string) :
  d = "0"%string \/ d = "1"%string \/ d = "2"%string ->
  py_lower (py_strip raw) = str_of d <-> py_strip raw = str_of d.
Proof.
  intros Hd. destruct Hd as [->|[->| ->]];
    [change (str_of "0") with [48]|change (str_of "1") with [49]|change (str_of "2") with [50]];
    (split; [apply lower_single_digit; lia|intros ->; vm_compute; reflexivity]).
Qed.

Lemma menu_choice_exact_witness :
  ("1"%string = "0"%string \/ "1"%string = "1"%string \/ "1"%string = "2"%string) /\
  (py_lower (py_strip ([0x2003] ++ str_of "1")) = str_of "1" <->
   py_strip ([0x2003] ++ str_of "1") = str_of "1").
Proof.
  split; [right; left; reflexivity|].
  apply menu_choice_exact. right. left. reflexivity.
Defined.
